(** * Posture reward, observation normalisation and action mapping

    A shallow embedding of

    - [envs/JSBSim/reward_functions/posture_reward.py] (class [PostureReward])
    - [envs/JSBSim/tasks/singlecombat_task.py] (class [SingleCombatTask])

    Numeric model.  The reward shaping and the observation vector use
    [tanh], [arctanh], [exp], [sin], [cos] and square roots, for which numpy
    gives no bit-level contract; they are embedded over the real numbers,
    extended with the IEEE special values where the source can produce them
    on its documented domain ([np.arctanh(-1.) = -inf] at [TA = pi]).
    Rounding is not modelled there.  The action mapper only adds, subtracts,
    multiplies and divides; it is embedded twice, over the reals (for
    statements about every integer index) and bit-exactly in IEEE binary64
    (for statements about exactness on the discrete grid). *)

From Stdlib Require Import Reals Lra Lia ZArith List String Bool.
From Stdlib Require Import Floats.SpecFloat.
Import ListNotations.

Open Scope R_scope.

(** ** numpy scalars: reals with the IEEE special values *)

Inductive npfloat : Type :=
| Fin (r : R)
| PInf
| NInf
| NaN.

Module Np.

(** IEEE [<] on scalars; every comparison with [nan] is false. *)
Definition lt (a b : npfloat) : Prop :=
  match a, b with
  | Fin x, Fin y => x < y
  | Fin _, PInf => True
  | NInf, Fin _ => True
  | NInf, PInf => True
  | _, _ => False
  end.

Definition le (a b : npfloat) : Prop :=
  match a, b with
  | Fin x, Fin y => x <= y
  | Fin _, PInf => True
  | NInf, Fin _ => True
  | NInf, PInf => True
  | PInf, PInf => True
  | NInf, NInf => True
  | _, _ => False
  end.

Definition lt_dec (a b : npfloat) : {lt a b} + {~ lt a b}.
Proof.
  destruct a as [x| | |], b as [y| | |]; simpl;
    try (left; exact I); try (right; intros []).
  apply Rlt_dec.
Defined.

Definition add (a b : npfloat) : npfloat :=
  match a, b with
  | NaN, _ | _, NaN => NaN
  | Fin x, Fin y => Fin (x + y)
  | PInf, NInf | NInf, PInf => NaN
  | PInf, _ | _, PInf => PInf
  | NInf, _ | _, NInf => NInf
  end.

(** Sign of an infinite product or quotient. *)
Definition signed_inf (positive : bool) : npfloat :=
  if positive then PInf else NInf.

Definition mul_inf (positive : bool) (x : R) : npfloat :=
  if Rlt_dec 0 x then signed_inf positive
  else if Rlt_dec x 0 then signed_inf (negb positive)
  else NaN.

Definition mul (a b : npfloat) : npfloat :=
  match a, b with
  | NaN, _ | _, NaN => NaN
  | Fin x, Fin y => Fin (x * y)
  | Fin x, PInf | PInf, Fin x => mul_inf true x
  | Fin x, NInf | NInf, Fin x => mul_inf false x
  | PInf, PInf | NInf, NInf => PInf
  | PInf, NInf | NInf, PInf => NInf
  end.

(** float64 division: a zero divisor gives a signed infinity (or [nan]
    for [0/0]) with a warning, not an exception. *)
Definition div (a b : npfloat) : npfloat :=
  match a, b with
  | NaN, _ | _, NaN => NaN
  | Fin x, Fin y =>
      if Req_dec_T y 0 then
        (if Rlt_dec 0 x then PInf else if Rlt_dec x 0 then NInf else NaN)
      else Fin (x / y)
  | Fin _, (PInf | NInf) => Fin 0
  | PInf, Fin y => if Rle_dec 0 y then PInf else NInf
  | NInf, Fin y => if Rle_dec 0 y then NInf else PInf
  | (PInf | NInf), (PInf | NInf) => NaN
  end.

(** [np.arctanh]: poles at [-1] and [1], [nan] outside [[-1, 1]]. *)
Definition arctanh (x : R) : npfloat :=
  if Rlt_dec (-1) x then
    if Rlt_dec x 1 then Fin (ln ((1 + x) / (1 - x)) / 2)
    else if Req_dec_T x 1 then PInf else NaN
  else if Req_dec_T x (-1) then NInf else NaN.

(** [np.sign] on a finite scalar. *)
Definition sign (x : R) : R :=
  if Rlt_dec 0 x then 1 else if Rlt_dec x 0 then -1 else 0.

(** [np.clip(x, lo, hi)] is [minimum(maximum(x, lo), hi)]. *)
Definition clip (x lo hi : R) : R := Rmin (Rmax x lo) hi.

End Np.

(** ** Python builtins [min] and [max] on two arguments

    [max(a, b)] keeps [a] unless [b > a]; [min(a, b)] keeps [a] unless
    [b < a]. *)

Definition py_max (a b : R) : R := if Rlt_dec a b then b else a.

Definition py_min_np (a b : npfloat) : npfloat :=
  if Np.lt_dec b a then b else a.

(** [np.min([a, b])] of two finite scalars. *)
Definition np_min2 (a b : R) : R := Rmin a b.

(** ** Exceptions *)

Inductive exn : Type :=
| NotImplementedError (msg : string)
| AssertionError (msg : string)
| IndexError.

Inductive result (A : Type) : Type :=
| Ok (a : A)
| Raise (e : exn).

Arguments Ok {A} a.
Arguments Raise {A} e.

Definition bind {A B : Type} (m : result A) (k : A -> result B) : result B :=
  match m with
  | Ok a => k a
  | Raise e => Raise e
  end.

Notation "x <- m ;; k" := (bind m (fun x => k))
  (at level 61, m at next level, right associativity).

(** ** [PostureReward] *)

Module PostureReward.

(** The attributes [__init__] reads from the configuration object with
    [getattr(config, name, default)]; [None] is an absent attribute. *)
Record Config : Type := {
  PostureReward_orientation_version : option string;
  PostureReward_range_version : option string;
  PostureReward_target_dist : option R
}.

Definition getattr {A : Type} (attr : option A) (default : A) : A :=
  match attr with
  | Some a => a
  | None => default
  end.

(** The instance attributes set by [__init__]. *)
Record t : Type := {
  orientation_version : string;
  range_version : string;
  target_dist : R;
  orientation_fn : R -> R -> npfloat;
  range_fn : R -> R;
  reward_item_names : list string
}.

(** The shared target-aspect term
    [np.arctanh(1. - max(2 * TA / np.pi, 1e-4))]. *)
Definition aspect (TA : R) : npfloat :=
  Np.arctanh (1 - py_max (2 * TA / PI) 1e-4).

(** The summand [min(aspect / (2 * np.pi), 0.)] of [v0] and [v2], named
    for the statements below. *)
Definition penalty (TA : R) : npfloat :=
  py_min_np (Np.div (aspect TA) (Fin (2 * PI))) (Fin 0).

Definition orientation_v0 (AO TA : R) : npfloat :=
  Np.add
    (Np.add
       (Fin ((1 - tanh (9 * (AO - PI / 9))) / 3 + 1 / 3))
       (py_min_np (Np.div (aspect TA) (Fin (2 * PI))) (Fin 0)))
    (Fin 0.5).

Definition orientation_v1 (AO TA : R) : npfloat :=
  Np.add
    (Np.div
       (Np.mul (Fin ((1 - tanh (2 * (AO - PI / 2))) / 2)) (aspect TA))
       (Fin (2 * PI)))
    (Fin 0.5).

Definition orientation_v2 (AO TA : R) : npfloat :=
  Np.add
    (Np.add
       (Np.add (Np.div (Fin 1) (Fin (50 * AO / PI + 2))) (Fin (1 / 2)))
       (py_min_np (Np.div (aspect TA) (Fin (2 * PI))) (Fin 0)))
    (Fin 0.5).

(** The version tags the two dispatchers accept. *)
Definition recognized (version : string) : bool :=
  String.eqb version "v0" || String.eqb version "v1"
  || String.eqb version "v2".

Definition get_orientation_function (version : string)
  : result (R -> R -> npfloat) :=
  if String.eqb version "v0" then Ok orientation_v0
  else if String.eqb version "v1" then Ok orientation_v1
  else if String.eqb version "v2" then Ok orientation_v2
  else Raise (NotImplementedError
                ("Unknown orientation function version: " ++ version)).

Definition range_v0 (target_dist r : R) : R :=
  exp (- ((r - target_dist) ^ 2) * 0.004)
  / (1 + exp (- (r - target_dist + 2) * 2)).

(** The argument of [np.clip] in versions [v1] and [v2]. *)
Definition range_smooth (target_dist r : R) : R :=
  1.2 * np_min2 (exp (- (r - target_dist) * 0.21)) 1
  / (1 + exp (- (r - target_dist + 1) * 0.8)).

Definition range_v1 (target_dist r : R) : R :=
  Np.clip (range_smooth target_dist r) 0.3 1.

Definition range_v2 (target_dist r : R) : R :=
  py_max (Np.clip (range_smooth target_dist r) 0.3 1) (Np.sign (7 - r)).

(** The returned closures read [self.target_dist], which [__init__] has
    set before and nothing changes afterwards. *)
Definition get_range_funtion (target_dist : R) (version : string)
  : result (R -> R) :=
  if String.eqb version "v0" then Ok (range_v0 target_dist)
  else if String.eqb version "v1" then Ok (range_v1 target_dist)
  else if String.eqb version "v2" then Ok (range_v2 target_dist)
  else Raise (NotImplementedError
                ("Unknown range function version: " ++ version)).

(** [__init__].  [num_agents] is the attribute the base-class initialiser
    stores in [self.num_agents] before the assertion. *)
Definition __init__ (num_agents : Z) (config : Config) : result t :=
  if Z.eqb num_agents 2 then
    let orientation_version :=
      getattr (PostureReward_orientation_version config) "v2"%string in
    let range_version :=
      getattr (PostureReward_range_version config) "v2"%string in
    let target_dist := getattr (PostureReward_target_dist config) 3.0 in
    orientation_fn <- get_orientation_function orientation_version ;;
    range_fn <- get_range_funtion target_dist range_version ;;
    Ok {| orientation_version := orientation_version;
          range_version := range_version;
          target_dist := target_dist;
          orientation_fn := orientation_fn;
          range_fn := range_fn;
          reward_item_names :=
            map (fun item => ("PostureReward" ++ item)%string)
                [EmptyString; "_orn"; "_range"]%string |}
  else
    Raise (AssertionError
             "PostureReward only support one-to-one environments but current env has more than 2 agents!").

(** What one evaluation reports. *)
Record RewardBreakdown : Type := {
  total : npfloat;
  orientation_component : npfloat;
  range_component : npfloat
}.

(** Modelled from the spec: the base-class method [_process] is not part of
    the excerpt.  The reward engine combines the two components "into one
    reward, reporting the sub-components for diagnostics", and a
    RewardBreakdown is {total, orientation_component, range_component}:
    the reward passed in is the total and the two render items are
    reported next to it. *)
Definition _process (new_reward : npfloat) (agent_id : nat)
           (render_items : npfloat * npfloat) : RewardBreakdown :=
  {| total := new_reward;
     orientation_component := fst render_items;
     range_component := snd render_items |}.

(** The local [new_reward] of [get_reward]. *)
Definition new_reward (self : t) (AO TA r : R) : npfloat :=
  let orientation_reward := orientation_fn self AO TA in
  let range_reward := Fin (range_fn self r) in
  Np.mul orientation_reward range_reward.

(** [get_reward], from the geometry [(AO, TA, R)] that [get_AO_TA_R]
    returns for the two aircraft; the range [R] is written [r]. *)
Definition get_reward (self : t) (agent_id : nat) (AO TA r : R)
  : RewardBreakdown :=
  let orientation_reward := orientation_fn self AO TA in
  let range_reward := Fin (range_fn self r) in
  let new_reward := Np.mul orientation_reward range_reward in
  _process new_reward agent_id (orientation_reward, range_reward).

End PostureReward.

(** ** Arrays

    [np.zeros(n)] followed by assignments to constant indices, and reads at
    constant indices that raise [IndexError] when the sequence is too
    short. *)

Definition np_zeros (n : nat) : list R := repeat 0 n.

Fixpoint assign {A : Type} (a : list A) (k : nat) (v : A) : list A :=
  match a, k with
  | [], _ => []
  | _ :: t, O => v :: t
  | x :: t, S k' => x :: assign t k' v
  end.

Definition item {A : Type} (a : list A) (k : nat) : result A :=
  match nth_error a k with
  | Some x => Ok x
  | None => Raise IndexError
  end.

(** [np.linalg.norm] of a vector: the root of the sum of squares. *)
Definition sum_sq (v : list R) : R :=
  fold_right (fun x acc => x * x + acc) 0 v.

Definition np_linalg_norm (v : list R) : R := sqrt (sum_sq v).

(** Elementwise difference of two arrays of the same shape. *)
Fixpoint np_sub (a b : list R) : list R :=
  match a, b with
  | x :: a', y :: b' => (x - y) :: np_sub a' b'
  | _, _ => []
  end.

(** ** IEEE binary64, bit-exact

    Python floats and float64 scalars as [spec_float] values with 53 bits
    of precision; every operation rounds to nearest, ties to even. *)

Module B64.

Definition prec : Z := 53.
Definition emax : Z := 1024.

Definition t : Type := spec_float.

(** Conversion of an integer, as in [int * float]. *)
Definition of_Z (z : Z) : t := binary_normalize prec emax z 0 false.

Definition add : t -> t -> t := SFadd prec emax.
Definition sub : t -> t -> t := SFsub prec emax.
Definition mul : t -> t -> t := SFmul prec emax.
Definition div : t -> t -> t := SFdiv prec emax.
Definition ltb : t -> t -> bool := SFltb.

(** The literals [0.5], [0.4], [0.9] and [1.5]. *)
Definition lit_0_5 : t := S754_finite false 4503599627370496 (-53).
Definition lit_0_4 : t := S754_finite false 7205759403792794 (-54).
Definition lit_0_9 : t := S754_finite false 8106479329266893 (-53).
Definition lit_1_5 : t := S754_finite false 6755399441055744 (-52).

Definition zeros (n : nat) : list t := repeat (S754_zero false) n.

(** Nearest integer, ties to even, of the quotient [m / 2^k]. *)
Definition round_shift (m : Z) (k : Z) : Z :=
  let d := Z.pow 2 k in
  let q := Z.div m d in
  let r := Z.modulo m d in
  match Z.compare (2 * r) d with
  | Lt => q
  | Gt => q + 1
  | Eq => if Z.even q then q else q + 1
  end%Z.

(** [round(x)] of a finite float; [None] for infinities and [nan],
    where Python raises. *)
Definition round (x : t) : option Z :=
  match x with
  | S754_zero _ => Some 0%Z
  | S754_finite s m e =>
      let n := if (0 <=? e)%Z then (Zpos m * Z.pow 2 e)%Z
               else round_shift (Zpos m) (- e) in
      Some (if s then (- n)%Z else n)
  | _ => None
  end.

End B64.

(** Runs [f] for [agent_id] in [range(n)] starting at [k]; the first
    exception ends the loop. *)
Fixpoint for_range {A : Type} (f : nat -> result A) (k n : nat)
  : result (list A) :=
  match n with
  | O => Ok []
  | S n' => row <- f k ;; rest <- for_range f (S k) n' ;; Ok (row :: rest)
  end.

(** ** [SingleCombatTask] *)

Module SingleCombatTask.

(** [__init__] asserts [self.num_agents == 2]. *)
Definition num_agents : nat := 2.

(** [load_observation_space]: [Box(low=-10, high=10., shape=(18,))]. *)
Definition observation_low : R := -10.
Definition observation_high : R := 10.
Definition observation_shape : nat := 18.

(** [load_action_space]: [MultiDiscrete([41, 41, 41, 30])]. *)
Definition nvec : list Z := [41; 41; 41; 30]%Z.

(** The two attributes of the environment that [normalize_observation]
    reads. *)
Record Env : Type := {
  init_longitude : R;
  init_latitude : R
}.

Section Observation.

(** The helpers of [utils.utils] are not part of the excerpt.
    [lonlat2dis lon lat init_lon init_lat] returns [(east, north)];
    the angle-off, target-aspect and side-flag outputs of [get_AO_TA_R]
    are left abstract. *)
Variable lonlat2dis : R -> R -> R -> R -> R * R.
Variables geometry_AO geometry_TA geometry_side : list R -> list R -> R.

(** Modelled from the spec: [get_AO_TA_R] of [utils.utils] is missing.
    "Relative position vector = enemy.position - ego.position (in the
    local north/east/down frame); R = its Euclidean norm in
    kilometers."  The first three entries of a feature are the
    position. *)
Definition get_AO_TA_R (ego_feature enm_feature : list R)
  : R * R * R * R :=
  let delta := np_sub (firstn 3 enm_feature) (firstn 3 ego_feature) in
  (geometry_AO ego_feature enm_feature,
   geometry_TA ego_feature enm_feature,
   np_linalg_norm delta,
   geometry_side ego_feature enm_feature).

(** The inner [_normalize] of [normalize_observation].  The raw
    readings are indexed as in [load_variables]; the body reads
    [ego_obs_list] up to index 12 and [enm_obs_list] up to index 8. *)
Definition _normalize_observation (env : Env)
           (observations : list (list R)) (agent_id : nat)
  : result (list R) :=
  let ego_idx := agent_id in
  let enm_idx := ((agent_id + 1) mod num_agents)%nat in
  ego_obs_list <- item observations ego_idx ;;
  enm_obs_list <- item observations enm_idx ;;
  if ((13 <=? List.length ego_obs_list) && (9 <=? List.length enm_obs_list))%nat
  then
    let ego := fun k => nth k ego_obs_list 0 in
    let enm := fun k => nth k enm_obs_list 0 in
    let '(ego_cur_east, ego_cur_north) :=
      lonlat2dis (ego 0%nat) (ego 1%nat)
                 (init_longitude env) (init_latitude env) in
    let '(enm_cur_east, enm_cur_north) :=
      lonlat2dis (enm 0%nat) (enm 1%nat)
                 (init_longitude env) (init_latitude env) in
    let ego_feature :=
      [ ego_cur_north / 1000; ego_cur_east / 1000;
        ego 2%nat * 0.304 / 1000;
        ego 6%nat * 0.304 / 340; ego 7%nat * 0.304 / 340;
        ego 8%nat * 0.304 / 340 ] in
    let enm_feature :=
      [ enm_cur_north / 1000; enm_cur_east / 1000;
        enm 2%nat * 0.304 / 1000;
        enm 6%nat * 0.304 / 340; enm 7%nat * 0.304 / 340;
        enm 8%nat * 0.304 / 340 ] in
    let observation := np_zeros 18 in
    let observation := assign observation 0 (ego 2%nat * 0.304 / 5000) in
    let observation :=
      assign observation 1 (np_linalg_norm (skipn 3 ego_feature)) in
    let observation := assign observation 2 (ego 8%nat) in
    let observation := assign observation 3 (sin (ego 3%nat)) in
    let observation := assign observation 4 (cos (ego 3%nat)) in
    let observation := assign observation 5 (sin (ego 4%nat)) in
    let observation := assign observation 6 (cos (ego 4%nat)) in
    let observation := assign observation 7 (ego 9%nat * 0.304 / 340) in
    let observation := assign observation 8 (ego 10%nat) in
    let observation := assign observation 9 (ego 11%nat) in
    let observation := assign observation 10 (ego 12%nat) in
    let '(ego_AO, ego_TA, r, side_flag) :=
      get_AO_TA_R ego_feature enm_feature in
    let observation := assign observation 11 (r / 10) in
    let observation := assign observation 12 ego_AO in
    let observation := assign observation 13 ego_TA in
    let observation := assign observation 14 side_flag in
    let observation := assign observation 15 (enm 2%nat * 0.304 / 5000) in
    let observation :=
      assign observation 16 (np_linalg_norm (skipn 3 enm_feature)) in
    let observation := assign observation 17 (enm 8%nat) in
    Ok observation
  else Raise IndexError.

(** The feature array [_normalize] builds from one aircraft's
    readings, named for the statements below. *)
Definition feature (env : Env) (obs_list : list R) : list R :=
  let '(cur_east, cur_north) :=
    lonlat2dis (nth 0 obs_list 0) (nth 1 obs_list 0)
               (init_longitude env) (init_latitude env) in
  [ cur_north / 1000; cur_east / 1000; nth 2 obs_list 0 * 0.304 / 1000;
    nth 6 obs_list 0 * 0.304 / 340; nth 7 obs_list 0 * 0.304 / 340;
    nth 8 obs_list 0 * 0.304 / 340 ].

Definition normalize_observation (env : Env)
           (observations : list (list R)) : result (list (list R)) :=
  for_range (_normalize_observation env observations) 0 num_agents.

End Observation.

(** The inner [_normalize] of [normalize_action], over the reals.  The
    body reads [actions[agent_id]] at the indices 0 to 3. *)
Definition _normalize_action (actions : list (list Z)) (agent_id : nat)
  : result (list R) :=
  act <- item actions agent_id ;;
  if (4 <=? List.length act)%nat then
    let a := fun k => IZR (nth k act 0%Z) in
    let n := fun k => IZR (nth k nvec 0%Z) in
    let action := np_zeros 4 in
    let action := assign action 0 (a 0%nat * 2 / (n 0%nat - 1) - 1) in
    let action := assign action 1 (a 1%nat * 2 / (n 1%nat - 1) - 1) in
    let action := assign action 2 (a 2%nat * 2 / (n 2%nat - 1) - 1) in
    let action := assign action 3 (a 3%nat * 0.5 / (n 3%nat - 1) + 0.4) in
    Ok action
  else Raise IndexError.

Definition normalize_action (actions : list (list Z))
  : result (list (list R)) :=
  for_range (_normalize_action actions) 0 num_agents.

(** The same two functions in binary64. *)
Definition _normalize_action_b64 (actions : list (list Z)) (agent_id : nat)
  : result (list B64.t) :=
  act <- item actions agent_id ;;
  if (4 <=? List.length act)%nat then
    let a := fun k => B64.of_Z (nth k act 0%Z) in
    let n := fun k => B64.of_Z (nth k nvec 0%Z) in
    let one := B64.of_Z 1 in
    let two := B64.of_Z 2 in
    let action := B64.zeros 4 in
    let action :=
      assign action 0
        (B64.sub (B64.div (B64.mul (a 0%nat) two) (B64.sub (n 0%nat) one))
                 one) in
    let action :=
      assign action 1
        (B64.sub (B64.div (B64.mul (a 1%nat) two) (B64.sub (n 1%nat) one))
                 one) in
    let action :=
      assign action 2
        (B64.sub (B64.div (B64.mul (a 2%nat) two) (B64.sub (n 2%nat) one))
                 one) in
    let action :=
      assign action 3
        (B64.add (B64.div (B64.mul (a 3%nat) B64.lit_0_5)
                          (B64.sub (n 3%nat) one))
                 B64.lit_0_4) in
    Ok action
  else Raise IndexError.

Definition normalize_action_b64 (actions : list (list Z))
  : result (list (list B64.t)) :=
  for_range (_normalize_action_b64 actions) 0 num_agents.

End SingleCombatTask.

(** ** The de-quantisation rule in the words of the specification

    "For a control with N discrete levels over continuous range [lo, hi],
    value = index * (hi - lo) / (N - 1) + lo", and the inverse quantisation
    that solves this equation for the index.  These two definitions follow
    the specification, not the source; the theorems compare them with
    [normalize_action]. *)

Module ActionMapper.

Definition dequantize (N : Z) (lo hi : R) (index : Z) : R :=
  IZR index * (hi - lo) / (IZR N - 1) + lo.

(** The inverse on the reals, before any rounding to an integer. *)
Definition quantize (N : Z) (lo hi : R) (value : R) : R :=
  (value - lo) * (IZR N - 1) / (hi - lo).

Definition dequantize_b64 (N : Z) (lo hi : B64.t) (index : Z) : B64.t :=
  B64.add
    (B64.div (B64.mul (B64.of_Z index) (B64.sub hi lo))
             (B64.sub (B64.of_Z N) (B64.of_Z 1)))
    lo.

(** The inverse in binary64, rounded to the nearest integer index. *)
Definition quantize_b64 (N : Z) (lo hi : B64.t) (value : B64.t)
  : option Z :=
  B64.round
    (B64.div (B64.mul (B64.sub value lo) (B64.sub (B64.of_Z N) (B64.of_Z 1)))
             (B64.sub hi lo)).

End ActionMapper.

(** ** Checks over the discrete grid *)

Module Grid.

(** The indices [0 .. N - 1] of a control with [N] levels. *)
Definition indices (N : Z) : list Z := map Z.of_nat (seq 0 (Z.to_nat N)).

(** De-quantising index [i] and quantising the result gives [i] back. *)
Definition roundtrip_b64 (N : Z) (lo hi : B64.t) (i : Z) : bool :=
  match ActionMapper.quantize_b64 N lo hi
          (ActionMapper.dequantize_b64 N lo hi i) with
  | Some j => Z.eqb j i
  | None => false
  end.

(** The de-quantised value lies in [[lo, hi]]. *)
Definition in_range_b64 (N : Z) (lo hi : B64.t) (i : Z) : bool :=
  let v := ActionMapper.dequantize_b64 N lo hi i in
  SFleb lo v && SFleb v hi.

End Grid.

(** ** Sample simulator readings

    Readings in the order of [load_variables]: longitude and latitude in
    degrees, altitude in feet, roll, pitch and yaw in radians, the three
    velocity components and the calibrated airspeed in feet per second,
    the three pilot accelerations in G. *)

Module Samples.

(** 20000 ft, 800 fps northbound, descending at 100 fps (about 30 m/s). *)
Definition descending : list R :=
  [120; 60; 20000; 0; 0; 0; 800; 0; 100; 800; 0; 0; 1].

(** 25000 ft, 700 fps southbound, level. *)
Definition level : list R :=
  [120.1; 60; 25000; 0; 0; PI; - 700; 0; 0; 700; 0; 0; 1].

(** An altitude reading far outside any flight envelope. *)
Definition very_high : list R :=
  [120; 60; 200000; 0; 0; 0; 800; 0; 0; 800; 0; 0; 1].

Definition env : SingleCombatTask.Env :=
  {| SingleCombatTask.init_longitude := 120;
     SingleCombatTask.init_latitude := 60 |}.

Definition config_default : PostureReward.Config :=
  {| PostureReward.PostureReward_orientation_version := None;
     PostureReward.PostureReward_range_version := None;
     PostureReward.PostureReward_target_dist := None |}.

Definition config_v0_v2 : PostureReward.Config :=
  {| PostureReward.PostureReward_orientation_version := Some "v0"%string;
     PostureReward.PostureReward_range_version := Some "v2"%string;
     PostureReward.PostureReward_target_dist := Some 3.0 |}.

Definition config_unknown : PostureReward.Config :=
  {| PostureReward.PostureReward_orientation_version := Some "v3"%string;
     PostureReward.PostureReward_range_version := None;
     PostureReward.PostureReward_target_dist := None |}.

(** The engine [__init__] builds from [config_default]. *)
Definition engine_default : PostureReward.t :=
  {| PostureReward.orientation_version := "v2";
     PostureReward.range_version := "v2";
     PostureReward.target_dist := 3.0;
     PostureReward.orientation_fn := PostureReward.orientation_v2;
     PostureReward.range_fn := PostureReward.range_v2 3.0;
     PostureReward.reward_item_names :=
       ["PostureReward"; "PostureReward_orn"; "PostureReward_range"]%string
  |}.

(** Stand-ins for the helpers of [utils.utils]: a flat projection about
    the origin and a geometry that reports no angles. *)
Definition lonlat2dis (lon lat init_lon init_lat : R) : R * R :=
  ((lon - init_lon) * 55660, (lat - init_lat) * 111320).

Definition no_angle (ego_feature enm_feature : list R) : R := 0.

Definition normalized : result (list (list R)) :=
  SingleCombatTask.normalize_observation
    lonlat2dis no_angle no_angle no_angle env [descending; level].

Definition row (k : nat) : list R :=
  match normalized with
  | Ok rows => nth k rows []
  | Raise _ => []
  end.

(** Discrete actions: one on the grid, one with indices outside it. *)
Definition actions_on_grid : list (list Z) :=
  [[0; 40; 20; 29]; [7; 1; 39; 0]]%Z.

Definition actions_off_grid : list (list Z) :=
  [[50; 0; 0; -1]; [-3; 41; 0; 30]]%Z.

End Samples.

(** ** Statement helpers for the rest of the two classes *)

Module Space.
Import SingleCombatTask.

(** A row of indices drawn from [load_action_space]: one index per entry
    of [nvec], each at least 0 and below its number of levels. *)
Definition sampled (act : list Z) : Prop :=
  Forall2 (fun a n => (0 <= a < n)%Z) act nvec.

(** Entry [k] of a returned row. *)
Definition entry {A : Type} (d : A) (res : result (list A)) (k : nat) : A :=
  match res with
  | Ok row => nth k row d
  | Raise _ => d
  end.

(** What [normalize_action] returns for a control-surface index (entry 0
    of the row for [[i, 0, 0, 0]]) and for a throttle index (entry 3 of
    the row for [[0, 0, 0, j]]), over the reals and in binary64. *)
Definition surface (i : Z) : R :=
  entry 0 (_normalize_action [[i; 0; 0; 0]%Z] 0) 0.

Definition throttle (j : Z) : R :=
  entry 0 (_normalize_action [[0; 0; 0; j]%Z] 0) 3.

Definition surface_b64 (i : Z) : B64.t :=
  entry S754_nan (_normalize_action_b64 [[i; 0; 0; 0]%Z] 0) 0.

Definition throttle_b64 (j : Z) : B64.t :=
  entry S754_nan (_normalize_action_b64 [[0; 0; 0; j]%Z] 0) 3.

(** Neighbouring indices map to increasing binary64 values. *)
Definition increasing_surface_b64 (i : Z) : bool :=
  SFltb (surface_b64 i) (surface_b64 (i + 1)).

Definition increasing_throttle_b64 (j : Z) : bool :=
  SFltb (throttle_b64 j) (throttle_b64 (j + 1)).

(** Index [40 - i] maps to the negation of the value of index [i]. *)
Definition mirrored_b64 (i : Z) : bool :=
  SFeqb (surface_b64 (40 - i)) (SFopp (surface_b64 i)).

(** The value lies in the documented control range. *)
Definition surface_in_range_b64 (i : Z) : bool :=
  SFleb (B64.of_Z (-1)) (surface_b64 i) && SFleb (surface_b64 i) (B64.of_Z 1).

Definition throttle_in_range_b64 (j : Z) : bool :=
  SFleb B64.lit_0_4 (throttle_b64 j) && SFleb (throttle_b64 j) B64.lit_0_9.

End Space.

Module MoreSamples.

(** A recognised orientation tag with an unknown range tag. *)
Definition config_bad_range : PostureReward.Config :=
  {| PostureReward.PostureReward_orientation_version := Some "v1"%string;
     PostureReward.PostureReward_range_version := Some "v9"%string;
     PostureReward.PostureReward_target_dist := Some 5 |}.

(** The first sample aircraft with another heading reading. *)
Definition descending_east : list R :=
  [120; 60; 20000; 0; 0; PI / 2; 800; 0; 100; 800; 0; 0; 1].

(** A reading that lacks the three accelerations. *)
Definition truncated : list R :=
  [120; 60; 20000; 0; 0; 0; 800; 0; 100; 800].

(** The sample pair with the opponent replaced, and with the first
    aircraft replaced. *)
Definition normalized_other_opponent : result (list (list R)) :=
  SingleCombatTask.normalize_observation
    Samples.lonlat2dis Samples.no_angle Samples.no_angle Samples.no_angle
    Samples.env [Samples.descending; Samples.very_high].

Definition normalized_other_first : result (list (list R)) :=
  SingleCombatTask.normalize_observation
    Samples.lonlat2dis Samples.no_angle Samples.no_angle Samples.no_angle
    Samples.env [Samples.very_high; Samples.level].

Definition row_of (res : result (list (list R))) (k : nat) : list R :=
  match res with
  | Ok rows => nth k rows []
  | Raise _ => []
  end.

(** An action row that is too short, in an otherwise complete list. *)
Definition actions_short_row : list (list Z) :=
  [[0; 40; 20]; [7; 1; 39; 0]]%Z.

End MoreSamples.

(** * Properties *)

(** ** Scalars *)

Lemma py_max_Rmax (a b : R) : py_max a b = Rmax a b.
Proof.
  unfold py_max, Rmax.
  destruct (Rlt_dec a b), (Rle_dec a b); lra.
Qed.

Lemma clip_bounds (x lo hi : R) : lo <= hi -> lo <= Np.clip x lo hi <= hi.
Proof.
  intros Hlh. unfold Np.clip, Rmin, Rmax.
  destruct (Rle_dec x lo); destruct (Rle_dec _ hi); lra.
Qed.

Lemma sign_cases (x : R) :
  (0 < x /\ Np.sign x = 1) \/ (x = 0 /\ Np.sign x = 0)
  \/ (x < 0 /\ Np.sign x = -1).
Proof.
  unfold Np.sign.
  destruct (Rlt_dec 0 x); [left; lra|].
  destruct (Rlt_dec x 0); [right; right; lra|].
  right; left; lra.
Qed.

Lemma tanh_lt_1 (x : R) : tanh x < 1.
Proof.
  unfold tanh, sinh, cosh.
  pose proof (exp_pos x) as Hp. pose proof (exp_pos (- x)) as Hn.
  apply Rmult_lt_reg_r with ((exp x + exp (- x)) / 2); [lra|].
  unfold Rdiv at 1. rewrite Rmult_assoc, Rinv_l; lra.
Qed.

Lemma mul_1_r (a : npfloat) : Np.mul a (Fin 1) = a.
Proof.
  destruct a as [x| | |]; simpl; try reflexivity.
  - f_equal; lra.
  - unfold Np.mul_inf. destruct (Rlt_dec 0 1); [reflexivity | lra].
  - unfold Np.mul_inf. destruct (Rlt_dec 0 1); [reflexivity | lra].
Qed.

(** ** The target-aspect term *)

Module AspectFacts.
Import PostureReward.

Lemma two_pi_pos : 0 < 2 * PI.
Proof. pose proof PI_RGT_0; lra. Qed.

Lemma aspect_argument (TA : R) :
  0 <= TA <= PI -> -1 <= 1 - py_max (2 * TA / PI) 1e-4 <= 1 - 1e-4.
Proof.
  intros [H0 H1]. pose proof PI_RGT_0 as Hpi.
  assert (Hq : 0 <= 2 * TA / PI <= 2).
  { split.
    - apply Rmult_le_reg_r with PI; [lra|].
      unfold Rdiv. rewrite Rmult_assoc, Rinv_l; lra.
    - apply Rmult_le_reg_r with PI; [lra|].
      unfold Rdiv. rewrite Rmult_assoc, Rinv_l; lra. }
  unfold py_max. destruct (Rlt_dec _ _); lra.
Qed.

(** On the domain the term is a finite number or [-inf]. *)
Lemma aspect_cases (TA : R) :
  0 <= TA <= PI -> (exists x, aspect TA = Fin x) \/ aspect TA = NInf.
Proof.
  intros H. pose proof (aspect_argument TA H) as [Hl Hu].
  unfold aspect, Np.arctanh.
  destruct (Rlt_dec (-1) _) as [Hgt|Hngt].
  - destruct (Rlt_dec _ 1) as [Hlt|Hnlt]; [left; eauto | lra].
  - destruct (Req_dec_T _ (-1)); [right; reflexivity | lra].
Qed.

Lemma penalty_cases (TA : R) :
  0 <= TA <= PI ->
  (exists z, z <= 0 /\ penalty TA = Fin z) \/ penalty TA = NInf.
Proof.
  intros H. unfold penalty. pose proof two_pi_pos as Hpi.
  destruct (aspect_cases TA H) as [[x Hx]|Hx]; rewrite Hx; simpl.
  - destruct (Req_dec_T (2 * PI) 0); [lra|].
    unfold py_min_np.
    destruct (Np.lt_dec (Fin 0) (Fin (x / (2 * PI)))) as [Hlt|Hnlt].
    + left; exists 0; split; [lra | reflexivity].
    + left; exists (x / (2 * PI)); split; [simpl in Hnlt; lra | reflexivity].
  - destruct (Rle_dec 0 (2 * PI)); [|lra].
    right. unfold py_min_np.
    destruct (Np.lt_dec (Fin 0) NInf) as [Hlt|Hnlt];
      [destruct Hlt | reflexivity].
Qed.

(** At [TA = pi / 2] the argument of [arctanh] is zero and so is the
    term. *)
Lemma aspect_half_pi : aspect (PI / 2) = Fin 0.
Proof.
  pose proof PI_RGT_0 as Hpi.
  assert (Hq : 2 * (PI / 2) / PI = 1) by (field; lra).
  unfold aspect. rewrite Hq.
  unfold py_max. destruct (Rlt_dec 1 1e-4); [lra|].
  unfold Np.arctanh.
  destruct (Rlt_dec (-1) (1 - 1)); [|lra].
  destruct (Rlt_dec (1 - 1) 1); [|lra].
  f_equal.
  replace ((1 + (1 - 1)) / (1 - (1 - 1))) with 1 by (field; lra).
  rewrite ln_1. lra.
Qed.

Lemma penalty_half_pi : penalty (PI / 2) = Fin 0.
Proof.
  pose proof two_pi_pos as Hpi.
  unfold penalty. rewrite aspect_half_pi. simpl.
  destruct (Req_dec_T (2 * PI) 0); [lra|].
  unfold py_min_np.
  destruct (Np.lt_dec (Fin 0) (Fin (0 / (2 * PI)))) as [Hlt|Hnlt];
    [reflexivity|].
  f_equal. field. lra.
Qed.

(** At [TA = 0] the floor [1e-4] applies and the term is positive. *)
Lemma aspect_zero :
  exists x, 0 < x /\ aspect 0 = Fin x.
Proof.
  pose proof PI_RGT_0 as Hpi.
  assert (Hq : 2 * 0 / PI = 0) by (field; lra).
  unfold aspect. rewrite Hq.
  unfold py_max. destruct (Rlt_dec 0 1e-4); [|lra].
  unfold Np.arctanh.
  destruct (Rlt_dec (-1) (1 - 1e-4)); [|lra].
  destruct (Rlt_dec (1 - 1e-4) 1); [|lra].
  eexists; split; [|reflexivity].
  assert (Hgt : 1 < (1 + (1 - 1e-4)) / (1 - (1 - 1e-4))).
  { apply Rmult_lt_reg_r with (1 - (1 - 1e-4)); [lra|].
    unfold Rdiv. rewrite Rmult_assoc, Rinv_l; lra. }
  pose proof (ln_increasing 1 _ Rlt_0_1 Hgt) as Hln.
  rewrite ln_1 in Hln. lra.
Qed.

Lemma penalty_zero : penalty 0 = Fin 0.
Proof.
  pose proof two_pi_pos as Hpi.
  destruct aspect_zero as [x [Hx Hasp]].
  unfold penalty. rewrite Hasp. simpl.
  destruct (Req_dec_T (2 * PI) 0); [lra|].
  unfold py_min_np.
  destruct (Np.lt_dec (Fin 0) (Fin (x / (2 * PI)))) as [Hlt|Hnlt];
    [reflexivity|].
  exfalso. apply Hnlt. simpl.
  apply Rdiv_lt_0_compat; lra.
Qed.

End AspectFacts.

(** ** Orientation reward *)

Module OrientationFacts.
Import PostureReward AspectFacts.

Lemma orientation_v0_penalty (AO TA : R) :
  orientation_v0 AO TA =
  Np.add (Np.add (Fin ((1 - tanh (9 * (AO - PI / 9))) / 3 + 1 / 3))
                 (penalty TA))
         (Fin 0.5).
Proof. reflexivity. Qed.

(** For [AO >= 0] the quotient [1 / (50 * AO / pi + 2)] is finite and at
    most one half. *)
Lemma closing_term (AO : R) :
  0 <= AO ->
  exists q, 0 < q <= 1 / 2 /\
            Np.div (Fin 1) (Fin (50 * AO / PI + 2)) = Fin q.
Proof.
  intros H0. pose proof PI_RGT_0 as Hpi.
  assert (Hd : 2 <= 50 * AO / PI + 2).
  { assert (0 <= 50 * AO / PI); [|lra].
    apply Rmult_le_reg_r with PI; [lra|].
    unfold Rdiv. rewrite Rmult_assoc, Rinv_l; lra. }
  simpl. destruct (Req_dec_T (50 * AO / PI + 2) 0); [lra|].
  eexists; split; [|reflexivity].
  split.
  - apply Rdiv_lt_0_compat; lra.
  - apply Rmult_le_reg_r with (50 * AO / PI + 2); [lra|].
    unfold Rdiv at 1. rewrite Rmult_assoc, Rinv_l; lra.
Qed.

Lemma orientation_v2_penalty (AO TA : R) :
  orientation_v2 AO TA =
  Np.add (Np.add (Np.add (Np.div (Fin 1) (Fin (50 * AO / PI + 2)))
                         (Fin (1 / 2)))
                 (penalty TA))
         (Fin 0.5).
Proof. reflexivity. Qed.

(** Adding a non-positive or infinite penalty never raises a finite sum. *)
Lemma add_penalty_le (base : R) (TA : R) :
  0 <= TA <= PI ->
  Np.le (Np.add (Np.add (Fin base) (penalty TA)) (Fin 0.5))
        (Fin (base + 0 + 0.5)).
Proof.
  intros H.
  destruct (penalty_cases TA H) as [[z [Hz Hp]]|Hp]; rewrite Hp; simpl.
  - lra.
  - exact I.
Qed.

Lemma orientation_v0_le (AO TA : R) :
  0 <= TA <= PI ->
  Np.le (orientation_v0 AO TA) (orientation_v0 AO (PI / 2)).
Proof.
  intros H. rewrite !orientation_v0_penalty, penalty_half_pi.
  apply add_penalty_le; assumption.
Qed.

Lemma orientation_v2_le (AO TA : R) :
  0 <= AO -> 0 <= TA <= PI ->
  Np.le (orientation_v2 AO TA) (orientation_v2 AO (PI / 2)).
Proof.
  intros HA H. rewrite !orientation_v2_penalty, penalty_half_pi.
  destruct (closing_term AO HA) as [q [_ Hq]]. rewrite Hq.
  change (Np.add (Fin q) (Fin (1 / 2))) with (Fin (q + 1 / 2)).
  apply add_penalty_le; assumption.
Qed.

Lemma orientation_v2_at_origin : orientation_v2 0 0 = Fin 1.5.
Proof.
  pose proof PI_RGT_0 as Hpi.
  rewrite orientation_v2_penalty, penalty_zero. simpl.
  destruct (Req_dec_T (50 * 0 / PI + 2) 0) as [He|_].
  - exfalso. replace (50 * 0 / PI) with 0 in He by (field; lra). lra.
  - replace (50 * 0 / PI + 2) with 2 by (field; lra).
    simpl. f_equal. lra.
Qed.

Lemma orientation_v2_le_max (AO TA : R) :
  0 <= AO -> 0 <= TA <= PI -> Np.le (orientation_v2 AO TA) (Fin 1.5).
Proof.
  intros HA H. rewrite orientation_v2_penalty.
  destruct (closing_term AO HA) as [q [[_ Hq1] Hq]]. rewrite Hq.
  change (Np.add (Fin q) (Fin (1 / 2))) with (Fin (q + 1 / 2)).
  destruct (penalty_cases TA H) as [[z [Hz Hp]]|Hp]; rewrite Hp; simpl.
  - lra.
  - exact I.
Qed.

(** In [v1] the aspect term is a factor, not a clamped summand: at
    [AO = 0] the reward at [TA = 0] lies above the reward at
    [TA = pi / 2]. *)
Lemma orientation_v1_half_pi (AO : R) : orientation_v1 AO (PI / 2) = Fin 0.5.
Proof.
  pose proof two_pi_pos as Hpi.
  unfold orientation_v1. rewrite aspect_half_pi. simpl.
  destruct (Req_dec_T (2 * PI) 0); [lra|].
  simpl. f_equal. field. lra.
Qed.

Lemma orientation_v1_origin :
  exists y, 0.5 < y /\ orientation_v1 0 0 = Fin y.
Proof.
  pose proof two_pi_pos as Hpi.
  destruct aspect_zero as [x [Hx Hasp]].
  unfold orientation_v1. rewrite Hasp. simpl.
  destruct (Req_dec_T (2 * PI) 0); [lra|].
  simpl. eexists; split; [|reflexivity].
  pose proof (tanh_lt_1 (2 * (0 - PI / 2))) as Ht.
  assert (0 < (1 - tanh (2 * (0 - PI / 2))) / 2 * x / (2 * PI)); [|lra].
  apply Rdiv_lt_0_compat; [|lra].
  apply Rmult_lt_0_compat; lra.
Qed.

End OrientationFacts.

(** ** Range reward *)

Module RangeFacts.
Import PostureReward.

Lemma range_v1_bounds (td r : R) : 0.3 <= range_v1 td r <= 1.
Proof. unfold range_v1. apply clip_bounds. lra. Qed.

Lemma range_v2_Rmax (td r : R) :
  range_v2 td r = Rmax (range_v1 td r) (Np.sign (7 - r)).
Proof. unfold range_v2, range_v1. apply py_max_Rmax. Qed.

Lemma range_v2_floor (td r : R) : Np.sign (7 - r) <= range_v2 td r.
Proof. rewrite range_v2_Rmax. apply Rmax_r. Qed.

Lemma range_v2_near (td r : R) : r < 7 -> range_v2 td r = 1.
Proof.
  intros Hr. pose proof (range_v1_bounds td r) as [_ Hu].
  rewrite range_v2_Rmax.
  destruct (sign_cases (7 - r)) as [[_ Hs]|[[H0 _]|[H0 _]]]; try lra.
  rewrite Hs. unfold Rmax. destruct (Rle_dec _ 1); lra.
Qed.

End RangeFacts.

(** ** Construction *)

Module InitFacts.
Import PostureReward.

Lemma recognized_iff (version : string) :
  recognized version = true <->
  version = "v0"%string \/ version = "v1"%string \/ version = "v2"%string.
Proof.
  unfold recognized. rewrite !orb_true_iff, !String.eqb_eq. tauto.
Qed.

Lemma get_orientation_function_recognized (version : string) :
  recognized version = true ->
  exists fn, get_orientation_function version = Ok fn.
Proof.
  intros H. apply recognized_iff in H.
  destruct H as [-> | [-> | ->]]; eexists; reflexivity.
Qed.

Lemma get_orientation_function_unknown (version : string) :
  recognized version = false ->
  get_orientation_function version =
  Raise (NotImplementedError
           ("Unknown orientation function version: " ++ version)).
Proof.
  unfold recognized, get_orientation_function. intros H.
  apply orb_false_iff in H as [H H2]. apply orb_false_iff in H as [H0 H1].
  rewrite H0, H1, H2. reflexivity.
Qed.

Lemma get_range_funtion_recognized (td : R) (version : string) :
  recognized version = true ->
  exists fn, get_range_funtion td version = Ok fn.
Proof.
  intros H. apply recognized_iff in H.
  destruct H as [-> | [-> | ->]]; eexists; reflexivity.
Qed.

Lemma get_range_funtion_unknown (td : R) (version : string) :
  recognized version = false ->
  get_range_funtion td version =
  Raise (NotImplementedError
           ("Unknown range function version: " ++ version)).
Proof.
  unfold recognized, get_range_funtion. intros H.
  apply orb_false_iff in H as [H H2]. apply orb_false_iff in H as [H0 H1].
  rewrite H0, H1, H2. reflexivity.
Qed.

(** What a successful construction has done. *)
Lemma init_ok (n : Z) (config : Config) (self : t) :
  __init__ n config = Ok self ->
  n = 2%Z
  /\ orientation_version self =
     getattr (PostureReward_orientation_version config) "v2"%string
  /\ range_version self =
     getattr (PostureReward_range_version config) "v2"%string
  /\ target_dist self = getattr (PostureReward_target_dist config) 3.0
  /\ get_orientation_function (orientation_version self)
     = Ok (orientation_fn self)
  /\ get_range_funtion (target_dist self) (range_version self)
     = Ok (range_fn self).
Proof.
  unfold __init__. destruct (Z.eqb_spec n 2) as [-> | ]; [|discriminate].
  destruct (get_orientation_function _) as [ofn|] eqn:Ho;
    [|discriminate].
  simpl.
  destruct (get_range_funtion _ _) as [rfn|] eqn:Hr; [|discriminate].
  simpl. intros [= <-]. simpl. repeat split; assumption.
Qed.

Lemma range_v2_selected (td : R) (fn : R -> R) :
  get_range_funtion td "v2" = Ok fn -> fn = range_v2 td.
Proof. simpl. intros [= <-]. reflexivity. Qed.

End InitFacts.

(** ** Loops over the two agents *)

Lemma for_range_two {A : Type} (f : nat -> result A) (a b : A) :
  f 0%nat = Ok a -> f 1%nat = Ok b -> for_range f 0 2 = Ok [a; b].
Proof. intros Ha Hb. simpl. rewrite Ha, Hb. reflexivity. Qed.

Lemma for_range_two_inv {A : Type} (f : nat -> result A) (rows : list A) :
  for_range f 0 2 = Ok rows ->
  exists a b, f 0%nat = Ok a /\ f 1%nat = Ok b /\ rows = [a; b].
Proof.
  simpl. destruct (f 0%nat) as [a|]; [|discriminate].
  destruct (f 1%nat) as [b|]; [|discriminate].
  simpl. intros [= <-]. eauto.
Qed.

(** ** Observation vector *)

Module ObservationFacts.
Import SingleCombatTask.

Lemma sum_sq_np_sub_sym (a b : list R) :
  sum_sq (np_sub a b) = sum_sq (np_sub b a).
Proof.
  revert b. induction a as [|x a IH]; intros [|y b]; simpl; try reflexivity.
  rewrite (IH b). ring.
Qed.

Lemma norm_np_sub_sym (a b : list R) :
  np_linalg_norm (np_sub a b) = np_linalg_norm (np_sub b a).
Proof. unfold np_linalg_norm. now rewrite sum_sq_np_sub_sym. Qed.

Section Entries.
Variable lonlat2dis : R -> R -> R -> R -> R * R.
Variables geometry_AO geometry_TA geometry_side : list R -> list R -> R.

Let normalize :=
  _normalize_observation lonlat2dis geometry_AO geometry_TA geometry_side.
Let feat := feature lonlat2dis.

(** The eighteen entries written by one call of [_normalize]. *)
Lemma normalize_entries env observations agent_id ego enm :
  nth_error observations agent_id = Some ego ->
  nth_error observations ((agent_id + 1) mod num_agents) = Some enm ->
  (13 <= List.length ego)%nat -> (9 <= List.length enm)%nat ->
  normalize env observations agent_id =
  Ok [ nth 2 ego 0 * 0.304 / 5000;
       np_linalg_norm (skipn 3 (feat env ego));
       nth 8 ego 0;
       sin (nth 3 ego 0); cos (nth 3 ego 0);
       sin (nth 4 ego 0); cos (nth 4 ego 0);
       nth 9 ego 0 * 0.304 / 340;
       nth 10 ego 0; nth 11 ego 0; nth 12 ego 0;
       np_linalg_norm
         (np_sub (firstn 3 (feat env enm)) (firstn 3 (feat env ego)))
       / 10;
       geometry_AO (feat env ego) (feat env enm);
       geometry_TA (feat env ego) (feat env enm);
       geometry_side (feat env ego) (feat env enm);
       nth 2 enm 0 * 0.304 / 5000;
       np_linalg_norm (skipn 3 (feat env enm));
       nth 8 enm 0 ].
Proof.
  intros He Hm Hle Hlm.
  unfold normalize, feat, feature, _normalize_observation, item.
  rewrite He, Hm. cbv beta iota zeta delta [bind].
  apply Nat.leb_le in Hle, Hlm. rewrite Hle, Hlm. simpl andb. cbv iota.
  destruct (lonlat2dis (nth 0 ego 0) _ _ _) as [ee en].
  destruct (lonlat2dis (nth 0 enm 0) _ _ _) as [me mn].
  reflexivity.
Qed.

(** Entries 2 and 17 are the raw vertical-speed readings of the two
    aircraft, in the unit the simulator reports them. *)
Lemma normalize_vertical_speed env observations agent_id ego enm o :
  nth_error observations agent_id = Some ego ->
  nth_error observations ((agent_id + 1) mod num_agents) = Some enm ->
  normalize env observations agent_id = Ok o ->
  nth 2 o 0 = nth 8 ego 0 /\ nth 17 o 0 = nth 8 enm 0.
Proof.
  intros He Hm Ho.
  assert (Hl : (13 <= List.length ego)%nat /\ (9 <= List.length enm)%nat).
  { revert Ho. unfold normalize, _normalize_observation, item.
    rewrite He, Hm. cbv beta iota zeta delta [bind].
    destruct (13 <=? List.length ego)%nat eqn:H13; [|discriminate].
    destruct (9 <=? List.length enm)%nat eqn:H9; [|discriminate].
    intros _. apply Nat.leb_le in H13, H9. auto. }
  destruct Hl as [H13 H9].
  rewrite (normalize_entries env observations agent_id ego enm He Hm H13 H9)
    in Ho.
  injection Ho as <-. split; reflexivity.
Qed.

(** A reading that is too short raises [IndexError]. *)
Lemma normalize_short env observations agent_id ego :
  nth_error observations agent_id = Some ego ->
  (List.length ego < 13)%nat ->
  normalize env observations agent_id = Raise IndexError.
Proof.
  intros He Hlt.
  unfold normalize, _normalize_observation, item. rewrite He.
  cbv beta iota zeta delta [bind].
  destruct (nth_error observations ((agent_id + 1) mod num_agents));
    [|reflexivity].
  apply Nat.leb_gt in Hlt. rewrite Hlt. reflexivity.
Qed.

(** Both agents of a two-aircraft observation are normalised. *)
Lemma normalize_observation_pair env observations o0 o1 :
  normalize env observations 0%nat = Ok o0 ->
  normalize env observations 1%nat = Ok o1 ->
  normalize_observation lonlat2dis geometry_AO geometry_TA geometry_side
                        env observations = Ok [o0; o1].
Proof.
  intros H0 H1. unfold normalize_observation, num_agents.
  apply for_range_two; assumption.
Qed.

End Entries.
End ObservationFacts.

(** ** Action mapper *)

Module ActionFacts.
Import SingleCombatTask ActionMapper.

Lemma dequantize_surface (i : Z) :
  IZR i * 2 / (IZR 41 - 1) - 1 = dequantize 41 (-1) 1 i.
Proof. unfold dequantize. field. Qed.

Lemma dequantize_throttle (i : Z) :
  IZR i * 0.5 / (IZR 30 - 1) + 0.4 = dequantize 30 0.4 0.9 i.
Proof.
  unfold dequantize. replace (0.9 - 0.4) with 0.5 by lra. reflexivity.
Qed.

Lemma dequantize_surface_value (i : Z) :
  dequantize 41 (-1) 1 i = IZR i / 20 - 1.
Proof. unfold dequantize. field. Qed.

Lemma dequantize_throttle_value (i : Z) :
  dequantize 30 0.4 0.9 i = IZR i / 58 + 0.4.
Proof.
  unfold dequantize. replace (0.9 - 0.4) with (1 / 2) by lra.
  replace (IZR 30 - 1) with 29 by lra. lra.
Qed.

(** The rule is exact at both ends and is undone by its inverse. *)
Lemma dequantize_low (N : Z) (lo hi : R) : dequantize N lo hi 0 = lo.
Proof. unfold dequantize. lra. Qed.

Lemma dequantize_high (N : Z) (lo hi : R) :
  (1 < N)%Z -> dequantize N lo hi (N - 1) = hi.
Proof.
  intros HN. apply IZR_lt in HN.
  unfold dequantize. rewrite minus_IZR. field. lra.
Qed.

Lemma quantize_dequantize (N : Z) (lo hi : R) (i : Z) :
  (1 < N)%Z -> lo < hi ->
  quantize N lo hi (dequantize N lo hi i) = IZR i.
Proof.
  intros HN Hlh. apply IZR_lt in HN.
  unfold quantize, dequantize. field. lra.
Qed.

(** Every integer index is mapped, also outside the grid. *)
Lemma _normalize_action_ok actions agent_id act :
  nth_error actions agent_id = Some act ->
  (4 <= List.length act)%nat ->
  _normalize_action actions agent_id =
  Ok [ dequantize 41 (-1) 1 (nth 0 act 0%Z);
       dequantize 41 (-1) 1 (nth 1 act 0%Z);
       dequantize 41 (-1) 1 (nth 2 act 0%Z);
       dequantize 30 0.4 0.9 (nth 3 act 0%Z) ].
Proof.
  intros Ha Hl. unfold _normalize_action, item. rewrite Ha.
  cbv beta iota zeta delta [bind].
  apply Nat.leb_le in Hl. rewrite Hl.
  cbn [np_zeros repeat assign nth nvec].
  now rewrite !dequantize_surface, dequantize_throttle.
Qed.

(** Subtracting [1.] and adding [-1.] are the same binary64 operation. *)
Lemma b64_sub_one (x : B64.t) :
  B64.sub x (B64.of_Z 1) = B64.add x (B64.of_Z (-1)).
Proof.
  change (B64.of_Z 1) with (S754_finite false 4503599627370496 (-52)).
  change (B64.of_Z (-1)) with (S754_finite true 4503599627370496 (-52)).
  destruct x as [s|s| |s m e]; try reflexivity.
Qed.

Lemma b64_constants :
  B64.sub (B64.of_Z 1) (B64.of_Z (-1)) = B64.of_Z 2
  /\ B64.sub B64.lit_0_9 B64.lit_0_4 = B64.lit_0_5
  /\ B64.div (B64.of_Z 4) (B64.of_Z 10) = B64.lit_0_4
  /\ B64.div (B64.of_Z 9) (B64.of_Z 10) = B64.lit_0_9
  /\ B64.div (B64.of_Z 1) (B64.of_Z 2) = B64.lit_0_5
  /\ B64.div (B64.of_Z 3) (B64.of_Z 2) = B64.lit_1_5.
Proof. repeat split; vm_compute; reflexivity. Qed.

Lemma dequantize_b64_surface (i : Z) :
  B64.sub (B64.div (B64.mul (B64.of_Z i) (B64.of_Z 2))
                   (B64.sub (B64.of_Z 41) (B64.of_Z 1)))
          (B64.of_Z 1)
  = dequantize_b64 41 (B64.of_Z (-1)) (B64.of_Z 1) i.
Proof.
  unfold dequantize_b64. rewrite b64_sub_one.
  now destruct b64_constants as [-> _].
Qed.

Lemma dequantize_b64_throttle (i : Z) :
  B64.add (B64.div (B64.mul (B64.of_Z i) B64.lit_0_5)
                   (B64.sub (B64.of_Z 30) (B64.of_Z 1)))
          B64.lit_0_4
  = dequantize_b64 30 B64.lit_0_4 B64.lit_0_9 i.
Proof.
  unfold dequantize_b64.
  now destruct b64_constants as [_ [-> _]].
Qed.

Lemma _normalize_action_b64_ok actions agent_id act :
  nth_error actions agent_id = Some act ->
  (4 <= List.length act)%nat ->
  _normalize_action_b64 actions agent_id =
  Ok [ dequantize_b64 41 (B64.of_Z (-1)) (B64.of_Z 1) (nth 0 act 0%Z);
       dequantize_b64 41 (B64.of_Z (-1)) (B64.of_Z 1) (nth 1 act 0%Z);
       dequantize_b64 41 (B64.of_Z (-1)) (B64.of_Z 1) (nth 2 act 0%Z);
       dequantize_b64 30 B64.lit_0_4 B64.lit_0_9 (nth 3 act 0%Z) ].
Proof.
  intros Ha Hl. unfold _normalize_action_b64, item. rewrite Ha.
  cbv beta iota zeta delta [bind].
  apply Nat.leb_le in Hl. rewrite Hl.
  cbn [B64.zeros repeat assign nth nvec].
  now rewrite !dequantize_b64_surface, dequantize_b64_throttle.
Qed.

(** Membership in the grid, for checks that run over all of it. *)
Lemma indices_In (N i : Z) : (0 <= i < N)%Z -> In i (Grid.indices N).
Proof.
  intros H. unfold Grid.indices. apply in_map_iff.
  exists (Z.to_nat i). split; [lia|]. apply in_seq. lia.
Qed.

Lemma grid_forall (P : Z -> bool) (N : Z) :
  forallb P (Grid.indices N) = true ->
  forall i, (0 <= i < N)%Z -> P i = true.
Proof.
  intros H i Hi. rewrite forallb_forall in H. apply H, indices_In, Hi.
Qed.

Lemma roundtrip_b64_surface :
  forallb (Grid.roundtrip_b64 41 (B64.of_Z (-1)) (B64.of_Z 1))
          (Grid.indices 41) = true.
Proof. vm_compute. reflexivity. Qed.

Lemma roundtrip_b64_throttle :
  forallb (Grid.roundtrip_b64 30 B64.lit_0_4 B64.lit_0_9)
          (Grid.indices 30) = true.
Proof. vm_compute. reflexivity. Qed.

Lemma in_range_b64_surface :
  forallb (Grid.in_range_b64 41 (B64.of_Z (-1)) (B64.of_Z 1))
          (Grid.indices 41) = true.
Proof. vm_compute. reflexivity. Qed.

Lemma in_range_b64_throttle :
  forallb (Grid.in_range_b64 30 B64.lit_0_4 B64.lit_0_9)
          (Grid.indices 30) = true.
Proof. vm_compute. reflexivity. Qed.

Lemma endpoints_b64 :
  dequantize_b64 41 (B64.of_Z (-1)) (B64.of_Z 1) 0 = B64.of_Z (-1)
  /\ dequantize_b64 41 (B64.of_Z (-1)) (B64.of_Z 1) 40 = B64.of_Z 1
  /\ dequantize_b64 30 B64.lit_0_4 B64.lit_0_9 0 = B64.lit_0_4
  /\ dequantize_b64 30 B64.lit_0_4 B64.lit_0_9 29 = B64.lit_0_9.
Proof. repeat split; vm_compute; reflexivity. Qed.

End ActionFacts.

(** * The reward engine *)

Module RewardClaims.
Import PostureReward AspectFacts OrientationFacts RangeFacts InitFacts.

(** C1.  For every geometry triple (AO, TA, R) and every configured
    version pair, [get_reward] returns a total equal to the product of
    the configured orientation function at (AO, TA) and the configured
    range function at R, and reports exactly these two factors as the
    diagnostic sub-components.  The reporting step [_process] is the one
    modelled from the specification. *)
Theorem C1_get_reward_is_product :
  forall (num_agents : Z) (config : Config) (self : t)
         (agent_id : nat) (AO TA r : R),
    __init__ num_agents config = Ok self ->
    exists ofn rfn,
      get_orientation_function
        (getattr (PostureReward_orientation_version config) "v2"%string)
      = Ok ofn
      /\ get_range_funtion
           (getattr (PostureReward_target_dist config) 3.0)
           (getattr (PostureReward_range_version config) "v2"%string)
         = Ok rfn
      /\ total (get_reward self agent_id AO TA r)
         = Np.mul (ofn AO TA) (Fin (rfn r))
      /\ orientation_component (get_reward self agent_id AO TA r)
         = ofn AO TA
      /\ range_component (get_reward self agent_id AO TA r)
         = Fin (rfn r).
Proof.
  intros n config self agent_id AO TA r Hinit.
  destruct (init_ok n config self Hinit)
    as (_ & Hov & Hrv & Htd & Hofn & Hrfn).
  exists (orientation_fn self), (range_fn self).
  rewrite <- Hov, <- Hrv, <- Htd.
  repeat split; assumption || reflexivity.
Qed.

Lemma C1_get_reward_is_product_witness :
  __init__ 2 Samples.config_default = Ok Samples.engine_default
  /\ exists ofn rfn,
      get_orientation_function "v2" = Ok ofn
      /\ get_range_funtion 3.0 "v2" = Ok rfn
      /\ total (get_reward Samples.engine_default 0 0 0 3)
         = Np.mul (ofn 0 0) (Fin (rfn 3))
      /\ orientation_component (get_reward Samples.engine_default 0 0 0 3)
         = ofn 0 0
      /\ range_component (get_reward Samples.engine_default 0 0 0 3)
         = Fin (rfn 3).
Proof.
  split.
  - reflexivity.
  - apply (C1_get_reward_is_product 2 Samples.config_default
             Samples.engine_default 0%nat 0 0 3).
    reflexivity.
Defined.

(** C2, as the code has it.  For the orientation versions v0 and v2 and
    for every AO and TA in [0, pi], the reward at (AO, TA) is at most the
    reward at the same AO and TA = pi / 2, where the clamped target-aspect
    summand is zero: the summand can only penalise. *)
Theorem C2_aspect_term_penalises_v0_v2 :
  forall (version : string) (fn : R -> R -> npfloat) (AO TA : R),
    get_orientation_function version = Ok fn ->
    version = "v0"%string \/ version = "v2"%string ->
    0 <= AO <= PI -> 0 <= TA <= PI ->
    penalty (PI / 2) = Fin 0
    /\ Np.le (fn AO TA) (fn AO (PI / 2)).
Proof.
  intros version fn AO TA Hfn Hv [HA _] HT.
  split; [apply penalty_half_pi|].
  destruct Hv as [-> | ->]; simpl in Hfn; injection Hfn as <-.
  - apply orientation_v0_le; assumption.
  - apply orientation_v2_le; assumption.
Qed.

Lemma C2_aspect_term_penalises_v0_v2_witness :
  get_orientation_function "v2" = Ok orientation_v2
  /\ 0 <= 0 <= PI
  /\ penalty (PI / 2) = Fin 0
  /\ Np.le (orientation_v2 0 0) (orientation_v2 0 (PI / 2)).
Proof.
  assert (H0 : 0 <= 0 <= PI) by (pose proof PI_RGT_0; lra).
  split; [reflexivity|]. split; [exact H0|].
  apply (C2_aspect_term_penalises_v0_v2 "v2" orientation_v2 0 0).
  - reflexivity.
  - right; reflexivity.
  - exact H0.
  - exact H0.
Defined.

(** C2 as stated fails for version v1: at AO = 0 the reward at TA = 0 is
    above the reward at TA = pi / 2, which is 0.5. *)
Lemma C2_counterexample_v1 :
  get_orientation_function "v1" = Ok orientation_v1
  /\ 0 <= 0 <= PI
  /\ orientation_v1 0 (PI / 2) = Fin 0.5
  /\ Np.lt (orientation_v1 0 (PI / 2)) (orientation_v1 0 0)
  /\ ~ Np.le (orientation_v1 0 0) (orientation_v1 0 (PI / 2)).
Proof.
  destruct orientation_v1_origin as [y [Hy Hv]].
  split; [reflexivity|].
  split; [pose proof PI_RGT_0; lra|].
  split; [apply orientation_v1_half_pi|].
  rewrite orientation_v1_half_pi, Hv. simpl. lra.
Qed.

(** C3.  For every range R and target distance, the v2 range reward is
    the maximum of the clipped v1 formula and sign(7 - R); it is therefore
    at least sign(7 - R): at least 1 below 7 km, at least 0 at 7 km, at
    least -1 beyond 7 km, and at least -1 at R = 10 km. *)
Theorem C3_range_v2_floor :
  forall (target_dist r : R),
    get_range_funtion target_dist "v2" = Ok (range_v2 target_dist)
    /\ range_v2 target_dist r
       = Rmax (range_v1 target_dist r) (Np.sign (7 - r))
    /\ Np.sign (7 - r) <= range_v2 target_dist r
    /\ (r < 7 -> 1 <= range_v2 target_dist r)
    /\ (r = 7 -> 0 <= range_v2 target_dist r)
    /\ (7 < r -> -1 <= range_v2 target_dist r)
    /\ -1 <= range_v2 target_dist 10.
Proof.
  intros td r.
  assert (Hfloor : forall x, Np.sign (7 - x) <= range_v2 td x)
    by (intro; apply range_v2_floor).
  assert (Hsign : forall x, -1 <= Np.sign x).
  { intro x. destruct (sign_cases x) as [[_ ->]|[[_ ->]|[_ ->]]]; lra. }
  split; [reflexivity|].
  split; [apply range_v2_Rmax|].
  split; [apply Hfloor|].
  repeat split.
  - intros Hr. rewrite (range_v2_near td r Hr). lra.
  - intros ->. specialize (Hfloor 7).
    destruct (sign_cases (7 - 7)) as [[H _]|[[_ Hs]|[H _]]]; lra.
  - intros Hr. specialize (Hfloor r). specialize (Hsign (7 - r)). lra.
  - specialize (Hfloor 10). specialize (Hsign (7 - 10)). lra.
Qed.

Lemma C3_range_v2_floor_witness :
  1 <= range_v2 3 5 /\ 0 <= range_v2 3 7 /\ -1 <= range_v2 3 10.
Proof.
  destruct (C3_range_v2_floor 3 5) as (_ & _ & _ & Hnear & _).
  destruct (C3_range_v2_floor 3 7) as (_ & _ & _ & _ & Hat & _).
  destruct (C3_range_v2_floor 3 10) as (_ & _ & _ & _ & _ & Hfar & _).
  split; [apply Hnear; lra|].
  split; [apply Hat; reflexivity|].
  apply Hfar; lra.
Defined.

(** C4.  At AO = 0 and TA = 0 the v2 orientation reward is exactly
    1/2 + 1/2 + 0 + 0.5 = 1.5: the arctanh term is positive there, so its
    minimum with zero contributes 0.  No AO and TA in [0, pi] give a
    larger reward. *)
Theorem C4_orientation_v2_maximum :
  orientation_v2 0 0 = Fin (1 / 2 + 1 / 2 + 0 + 0.5)
  /\ orientation_v2 0 0 = Fin 1.5
  /\ (exists x, 0 < x /\ aspect 0 = Fin x)
  /\ penalty 0 = Fin 0
  /\ forall AO TA : R,
      0 <= AO <= PI -> 0 <= TA <= PI ->
      Np.le (orientation_v2 AO TA) (orientation_v2 0 0).
Proof.
  split; [rewrite orientation_v2_at_origin; f_equal; lra|].
  split; [apply orientation_v2_at_origin|].
  split; [apply aspect_zero|].
  split; [apply penalty_zero|].
  intros AO TA [HA _] HT. rewrite orientation_v2_at_origin.
  apply orientation_v2_le_max; assumption.
Qed.

Lemma C4_orientation_v2_maximum_witness :
  0 <= PI / 2 <= PI
  /\ Np.le (orientation_v2 (PI / 2) (PI / 2)) (orientation_v2 0 0).
Proof.
  assert (H : 0 <= PI / 2 <= PI) by (pose proof PI_RGT_0; lra).
  split; [exact H|].
  destruct C4_orientation_v2_maximum as (_ & _ & _ & _ & Hmax).
  apply Hmax; exact H.
Defined.

(** C8.  Construction with an orientation or range version tag outside
    {v0, v1, v2} never yields an engine: it raises, and once the
    two-agent assertion has passed the exception is NotImplementedError;
    no default is substituted for a tag that is present.  With both tags
    recognised, construction never raises NotImplementedError and, for
    two agents, yields an engine carrying the configured tags. *)
Theorem C8_unknown_version_raises :
  forall (num_agents : Z) (config : Config),
    let ov :=
      getattr (PostureReward_orientation_version config) "v2"%string in
    let rv :=
      getattr (PostureReward_range_version config) "v2"%string in
    (recognized ov && recognized rv = false ->
     (exists e, __init__ num_agents config = Raise e)
     /\ (num_agents = 2%Z ->
         exists msg,
           __init__ num_agents config = Raise (NotImplementedError msg)))
    /\ (recognized ov && recognized rv = true ->
        (forall msg,
            __init__ num_agents config <> Raise (NotImplementedError msg))
        /\ (num_agents = 2%Z ->
            exists self,
              __init__ num_agents config = Ok self
              /\ orientation_version self = ov
              /\ range_version self = rv)).
Proof.
  intros n config ov rv. split.
  - intros Hbad.
    assert (Hraise : n = 2%Z ->
              exists msg, __init__ n config = Raise (NotImplementedError msg)).
    { intros ->. unfold __init__. simpl Z.eqb. cbv iota.
      fold ov rv.
      destruct (recognized ov) eqn:Ho.
      - destruct (get_orientation_function_recognized ov Ho) as [ofn ->].
        simpl in Hbad. simpl bind.
        rewrite (get_range_funtion_unknown _ rv Hbad). simpl. eauto.
      - rewrite (get_orientation_function_unknown ov Ho). simpl. eauto. }
    split; [|exact Hraise].
    destruct (Z.eq_dec n 2) as [Hn|Hn].
    + destruct (Hraise Hn) as [msg ->]. eauto.
    + unfold __init__. apply Z.eqb_neq in Hn. rewrite Hn. eauto.
  - intros Hgood. apply andb_true_iff in Hgood as [Ho Hr].
    assert (Hok : n = 2%Z ->
              exists self, __init__ n config = Ok self
                           /\ orientation_version self = ov
                           /\ range_version self = rv).
    { intros ->. unfold __init__. simpl Z.eqb. cbv iota. fold ov rv.
      destruct (get_orientation_function_recognized ov Ho) as [ofn ->].
      destruct (get_range_funtion_recognized
                  (getattr (PostureReward_target_dist config) 3.0) rv Hr)
        as [rfn ->].
      simpl. eauto. }
    split; [|exact Hok].
    intros msg. destruct (Z.eq_dec n 2) as [Hn|Hn].
    + destruct (Hok Hn) as [self [-> _]]. discriminate.
    + unfold __init__. apply Z.eqb_neq in Hn. rewrite Hn. discriminate.
Qed.

Lemma C8_unknown_version_raises_witness :
  (exists msg,
      __init__ 2 Samples.config_unknown = Raise (NotImplementedError msg))
  /\ (exists self, __init__ 2 Samples.config_v0_v2 = Ok self
                   /\ orientation_version self = "v0"%string
                   /\ range_version self = "v2"%string).
Proof.
  split.
  - destruct (C8_unknown_version_raises 2 Samples.config_unknown)
      as [Hbad _].
    apply Hbad; reflexivity.
  - destruct (C8_unknown_version_raises 2 Samples.config_v0_v2)
      as [_ Hgood].
    apply Hgood; reflexivity.
Defined.

(** C9.  For every range strictly below 7 km the v2 range reward is
    exactly 1, whatever the target distance; the product computed by
    [get_reward] then equals the orientation component alone. *)
Theorem C9_range_v2_is_one_below_7 :
  forall (num_agents : Z) (config : Config) (self : t) (AO TA r : R),
    __init__ num_agents config = Ok self ->
    range_version self = "v2"%string ->
    r < 7 ->
    (forall target_dist : R, range_v2 target_dist r = 1)
    /\ range_fn self r = 1
    /\ new_reward self AO TA r = orientation_fn self AO TA.
Proof.
  intros n config self AO TA r Hinit Hv Hr.
  destruct (init_ok n config self Hinit) as (_ & _ & _ & _ & _ & Hrfn).
  rewrite Hv in Hrfn. apply range_v2_selected in Hrfn.
  assert (H1 : range_fn self r = 1)
    by (rewrite Hrfn; apply range_v2_near; exact Hr).
  split; [intro; apply range_v2_near; exact Hr|].
  split; [exact H1|].
  unfold new_reward. cbv zeta. rewrite H1. apply mul_1_r.
Qed.

Lemma C9_range_v2_is_one_below_7_witness :
  __init__ 2 Samples.config_default = Ok Samples.engine_default
  /\ 5 < 7
  /\ (forall target_dist : R, range_v2 target_dist 5 = 1)
  /\ range_fn Samples.engine_default 5 = 1
  /\ new_reward Samples.engine_default 0 0 5
     = orientation_fn Samples.engine_default 0 0.
Proof.
  split; [reflexivity|]. split; [lra|].
  apply (C9_range_v2_is_one_below_7 2 Samples.config_default
           Samples.engine_default 0 0 5).
  - reflexivity.
  - reflexivity.
  - lra.
Defined.

End RewardClaims.

(** * The task: observations and actions *)

Module TaskClaims.
Import SingleCombatTask ActionMapper ObservationFacts ActionFacts.

Section Observation.
Variable lonlat2dis : R -> R -> R -> R -> R * R.
Variables geometry_AO geometry_TA geometry_side : list R -> list R -> R.

Let normalize :=
  _normalize_observation lonlat2dis geometry_AO geometry_TA geometry_side.

(** A call of [_normalize] that returns has read both aircraft. *)
Lemma normalize_inv env observations agent_id o :
  normalize env observations agent_id = Ok o ->
  exists ego enm,
    nth_error observations agent_id = Some ego
    /\ nth_error observations ((agent_id + 1) mod num_agents) = Some enm
    /\ (13 <= List.length ego)%nat /\ (9 <= List.length enm)%nat.
Proof.
  unfold normalize, _normalize_observation, item.
  destruct (nth_error observations agent_id) as [ego|];
    [|discriminate].
  destruct (nth_error observations ((agent_id + 1) mod num_agents))
    as [enm|]; [|discriminate].
  cbv beta iota zeta delta [bind].
  destruct (13 <=? List.length ego)%nat eqn:He; [|discriminate].
  destruct (9 <=? List.length enm)%nat eqn:Hm; [|discriminate].
  intros _. exists ego, enm.
  apply Nat.leb_le in He, Hm. auto.
Qed.

(** C6.  For one pair of raw states, the two normalised vectors mirror
    each other: entries 0, 1, 2 (ego altitude, speed, vertical speed)
    of either agent equal entries 15, 16, 17 (the enemy block) of the
    other, and entry 11 (range / 10) is the same for both.  The
    equalities are exact over the reals. *)
Theorem C6_agent_swap_symmetry :
  forall (env : Env) (observations : list (list R)) (o0 o1 : list R),
    normalize_observation lonlat2dis geometry_AO geometry_TA
                          geometry_side env observations
    = Ok [o0; o1] ->
    nth 0 o0 0 = nth 15 o1 0
    /\ nth 1 o0 0 = nth 16 o1 0
    /\ nth 2 o0 0 = nth 17 o1 0
    /\ nth 0 o1 0 = nth 15 o0 0
    /\ nth 1 o1 0 = nth 16 o0 0
    /\ nth 2 o1 0 = nth 17 o0 0
    /\ nth 11 o0 0 = nth 11 o1 0.
Proof.
  intros env observations o0 o1 H.
  apply for_range_two_inv in H as (a & b & Ha & Hb & [= -> ->]).
  destruct (normalize_inv _ _ _ _ Ha) as (s0 & s1 & E0 & E1 & L0 & L1).
  destruct (normalize_inv _ _ _ _ Hb) as (t1 & t0 & F1 & F0 & M1 & M0).
  change ((0 + 1) mod num_agents)%nat with 1%nat in E1.
  change ((1 + 1) mod num_agents)%nat with 0%nat in F0.
  assert (t1 = s1) by congruence. assert (t0 = s0) by congruence.
  subst t1 t0.
  fold normalize in Ha, Hb.
  unfold normalize in Ha, Hb.
  rewrite (normalize_entries _ _ _ _ env observations 0%nat s0 s1)
    in Ha by assumption.
  rewrite (normalize_entries _ _ _ _ env observations 1%nat s1 s0)
    in Hb by assumption.
  injection Ha as <-. injection Hb as <-.
  cbn [nth].
  repeat split; try reflexivity.
  f_equal. apply norm_np_sub_sym.
Qed.

(** C5 at a descending aircraft.  With one aircraft at 20000 ft,
    800 fps and a descent of 100 fps, entry 2 of its vector and entry
    17 of the opponent's vector are the raw reading 100, above the
    declared upper bound 10; the same reading in Mach units, as the
    feature array scales it, is below 0.1.  Independently, an altitude
    reading of 200000 ft gives entry 0 the value 12.16: no entry is
    clipped. *)
Theorem C5_vertical_speed_entry_unscaled :
  (exists o0 o1,
      normalize_observation lonlat2dis geometry_AO geometry_TA
                            geometry_side Samples.env
                            [Samples.descending; Samples.level]
      = Ok [o0; o1]
      /\ List.length o0 = observation_shape
      /\ nth 2 o0 0 = 100
      /\ observation_high < nth 2 o0 0
      /\ nth 17 o1 0 = 100
      /\ nth 5 (feature lonlat2dis Samples.env Samples.descending) 0
         = 100 * 0.304 / 340
      /\ 100 * 0.304 / 340 < 0.1)
  /\ (exists o0 o1,
         normalize_observation lonlat2dis geometry_AO geometry_TA
                               geometry_side Samples.env
                               [Samples.very_high; Samples.level]
         = Ok [o0; o1]
         /\ nth 0 o0 0 = 12.16
         /\ observation_high < nth 0 o0 0).
Proof.
  split.
  - eexists; eexists. split.
    + apply normalize_observation_pair.
      * apply (normalize_entries _ _ _ _ Samples.env _ 0%nat
                 Samples.descending Samples.level);
          try reflexivity; simpl; lia.
      * apply (normalize_entries _ _ _ _ Samples.env _ 1%nat
                 Samples.level Samples.descending);
          try reflexivity; simpl; lia.
    + cbn [nth Samples.descending Samples.level List.length].
      unfold observation_high, observation_shape, feature.
      cbn [nth Samples.descending].
      destruct (lonlat2dis _ _ _ _) as [east north]. cbn [nth].
      repeat split; try reflexivity; lra.
  - eexists; eexists. split.
    + apply normalize_observation_pair.
      * apply (normalize_entries _ _ _ _ Samples.env _ 0%nat
                 Samples.very_high Samples.level);
          try reflexivity; simpl; lia.
      * apply (normalize_entries _ _ _ _ Samples.env _ 1%nat
                 Samples.level Samples.very_high);
          try reflexivity; simpl; lia.
    + cbn [nth Samples.very_high]. unfold observation_high.
      split; lra.
Qed.

End Observation.

Lemma C6_agent_swap_symmetry_witness :
  Samples.normalized = Ok [Samples.row 0; Samples.row 1]
  /\ nth 0 (Samples.row 0) 0 = nth 15 (Samples.row 1) 0
  /\ nth 1 (Samples.row 0) 0 = nth 16 (Samples.row 1) 0
  /\ nth 2 (Samples.row 0) 0 = nth 17 (Samples.row 1) 0
  /\ nth 0 (Samples.row 1) 0 = nth 15 (Samples.row 0) 0
  /\ nth 1 (Samples.row 1) 0 = nth 16 (Samples.row 0) 0
  /\ nth 2 (Samples.row 1) 0 = nth 17 (Samples.row 0) 0
  /\ nth 11 (Samples.row 0) 0 = nth 11 (Samples.row 1) 0.
Proof.
  split.
  - reflexivity.
  - apply (C6_agent_swap_symmetry
             Samples.lonlat2dis Samples.no_angle Samples.no_angle
             Samples.no_angle Samples.env
             [Samples.descending; Samples.level]).
    reflexivity.
Defined.

(** C7.  [normalize_action] maps every index by the linear rule
    value = index * (hi - lo) / (N - 1) + lo with (N, lo, hi) =
    (41, -1, 1) for aileron, elevator and rudder and (30, 0.4, 0.9) for
    throttle, over the reals and bit for bit in binary64.  On the grid
    the ends map exactly (index 0 to lo, index N - 1 to hi), every value
    lies in [lo, hi], and the inverse quantisation recovers each index
    i in [0, N - 1] exactly: without rounding over the reals, after
    rounding to the nearest integer in binary64. *)
Theorem C7_linear_rule_round_trip :
  forall (actions : list (list Z)) (agent_id : nat) (act : list Z)
         (i j : Z),
    nth_error actions agent_id = Some act ->
    (4 <= List.length act)%nat ->
    (0 <= i <= 40)%Z -> (0 <= j <= 29)%Z ->
    (_normalize_action actions agent_id =
     Ok [ dequantize 41 (-1) 1 (nth 0 act 0%Z);
          dequantize 41 (-1) 1 (nth 1 act 0%Z);
          dequantize 41 (-1) 1 (nth 2 act 0%Z);
          dequantize 30 0.4 0.9 (nth 3 act 0%Z) ]
     /\ _normalize_action_b64 actions agent_id =
        Ok [ dequantize_b64 41 (B64.of_Z (-1)) (B64.of_Z 1)
                            (nth 0 act 0%Z);
             dequantize_b64 41 (B64.of_Z (-1)) (B64.of_Z 1)
                            (nth 1 act 0%Z);
             dequantize_b64 41 (B64.of_Z (-1)) (B64.of_Z 1)
                            (nth 2 act 0%Z);
             dequantize_b64 30 B64.lit_0_4 B64.lit_0_9
                            (nth 3 act 0%Z) ])
    /\ (dequantize 41 (-1) 1 0 = -1
        /\ dequantize 41 (-1) 1 40 = 1
        /\ dequantize 30 0.4 0.9 0 = 0.4
        /\ dequantize 30 0.4 0.9 29 = 0.9)
    /\ (dequantize_b64 41 (B64.of_Z (-1)) (B64.of_Z 1) 0 = B64.of_Z (-1)
        /\ dequantize_b64 41 (B64.of_Z (-1)) (B64.of_Z 1) 40 = B64.of_Z 1
        /\ dequantize_b64 30 B64.lit_0_4 B64.lit_0_9 0 = B64.lit_0_4
        /\ dequantize_b64 30 B64.lit_0_4 B64.lit_0_9 29 = B64.lit_0_9)
    /\ (quantize 41 (-1) 1 (dequantize 41 (-1) 1 i) = IZR i
        /\ quantize 30 0.4 0.9 (dequantize 30 0.4 0.9 j) = IZR j)
    /\ (quantize_b64 41 (B64.of_Z (-1)) (B64.of_Z 1)
          (dequantize_b64 41 (B64.of_Z (-1)) (B64.of_Z 1) i) = Some i
        /\ quantize_b64 30 B64.lit_0_4 B64.lit_0_9
             (dequantize_b64 30 B64.lit_0_4 B64.lit_0_9 j) = Some j)
    /\ (Grid.in_range_b64 41 (B64.of_Z (-1)) (B64.of_Z 1) i = true
        /\ Grid.in_range_b64 30 B64.lit_0_4 B64.lit_0_9 j = true).
Proof.
  intros actions agent_id act i j Hact Hlen Hi Hj.
  split; [split|].
  { apply _normalize_action_ok; assumption. }
  { apply _normalize_action_b64_ok; assumption. }
  split.
  { rewrite !dequantize_surface_value, !dequantize_throttle_value.
    repeat split; lra. }
  split; [exact endpoints_b64|].
  split.
  { split; apply quantize_dequantize; lia || lra. }
  split.
  { pose proof (grid_forall _ _ roundtrip_b64_surface i) as Hs.
    pose proof (grid_forall _ _ roundtrip_b64_throttle j) as Ht.
    unfold Grid.roundtrip_b64 in Hs, Ht.
    split.
    - destruct (quantize_b64 41 _ _ _) as [k|];
        [|now discriminate Hs; lia].
      f_equal. apply Z.eqb_eq, Hs. lia.
    - destruct (quantize_b64 30 _ _ _) as [k|];
        [|now discriminate Ht; lia].
      f_equal. apply Z.eqb_eq, Ht. lia. }
  split.
  - apply (grid_forall _ _ in_range_b64_surface). lia.
  - apply (grid_forall _ _ in_range_b64_throttle). lia.
Qed.

Lemma C7_linear_rule_round_trip_witness :
  _normalize_action Samples.actions_on_grid 0 =
  Ok [ dequantize 41 (-1) 1 0; dequantize 41 (-1) 1 40;
       dequantize 41 (-1) 1 20; dequantize 30 0.4 0.9 29 ]
  /\ _normalize_action_b64 Samples.actions_on_grid 0 =
     Ok [ B64.of_Z (-1); B64.of_Z 1; S754_zero false; B64.lit_0_9 ]
  /\ quantize 41 (-1) 1 (dequantize 41 (-1) 1 7) = 7
  /\ quantize_b64 41 (B64.of_Z (-1)) (B64.of_Z 1)
       (dequantize_b64 41 (B64.of_Z (-1)) (B64.of_Z 1) 7) = Some 7%Z
  /\ quantize_b64 30 B64.lit_0_4 B64.lit_0_9
       (dequantize_b64 30 B64.lit_0_4 B64.lit_0_9 13) = Some 13%Z.
Proof.
  assert (Hi : (0 <= 7 <= 40)%Z) by lia.
  assert (Hj : (0 <= 13 <= 29)%Z) by lia.
  assert (Hl : (4 <= List.length [0; 40; 20; 29]%Z)%nat) by (simpl; lia).
  destruct (C7_linear_rule_round_trip
              Samples.actions_on_grid 0%nat [0; 40; 20; 29]%Z 7 13
              eq_refl Hl Hi Hj)
    as ((Hreal & Hb64) & _ & _ & (Hq & _) & (Hqs & Hqt) & _).
  split; [exact Hreal|].
  split; [rewrite Hb64; vm_compute; reflexivity|].
  split; [exact Hq|].
  split; [exact Hqs | exact Hqt].
Defined.

(** C10.  [normalize_action] checks no bounds: for any four integer
    indices it returns, without raising and without clamping, the values
    of the same linear formula.  An index above N - 1 gives a value above
    the upper end of the control range and a negative index a value below
    the lower end; aileron index 50 gives 1.5 and throttle index -1 gives
    a value below 0.4, over the reals and in binary64. *)
Theorem C10_no_bounds_check :
  forall (actions : list (list Z)) (agent_id : nat) (a0 a1 a2 a3 : Z)
         (more : list Z),
    nth_error actions agent_id = Some (a0 :: a1 :: a2 :: a3 :: more) ->
    (_normalize_action actions agent_id =
     Ok [ IZR a0 * 2 / 40 - 1; IZR a1 * 2 / 40 - 1; IZR a2 * 2 / 40 - 1;
          IZR a3 * 0.5 / 29 + 0.4 ])
    /\ (forall a : Z, (40 < a)%Z -> 1 < IZR a * 2 / 40 - 1)
    /\ (forall a : Z, (a < 0)%Z -> IZR a * 2 / 40 - 1 < -1)
    /\ (forall a : Z, (29 < a)%Z -> 0.9 < IZR a * 0.5 / 29 + 0.4)
    /\ (forall a : Z, (a < 0)%Z -> IZR a * 0.5 / 29 + 0.4 < 0.4)
    /\ IZR 50 * 2 / 40 - 1 = 1.5
    /\ IZR (-1) * 0.5 / 29 + 0.4 < 0.4
    /\ (exists v0 v1 v2 v3,
           _normalize_action_b64 actions agent_id = Ok [v0; v1; v2; v3])
    /\ (exists v,
           _normalize_action_b64 Samples.actions_off_grid 0 =
           Ok [ B64.lit_1_5; B64.of_Z (-1); B64.of_Z (-1); v ]
           /\ B64.ltb v B64.lit_0_4 = true
           /\ B64.ltb (B64.of_Z 1) B64.lit_1_5 = true).
Proof.
  intros actions agent_id a0 a1 a2 a3 more Hact.
  split.
  { unfold _normalize_action, item. rewrite Hact.
    cbv beta iota zeta delta [bind].
    cbn [List.length Nat.leb np_zeros repeat assign nth nvec].
    replace (IZR 41 - 1) with 40 by lra.
    replace (IZR 30 - 1) with 29 by lra.
    reflexivity. }
  split.
  { intros a Ha. apply IZR_lt in Ha. lra. }
  split.
  { intros a Ha. apply IZR_lt in Ha. lra. }
  split.
  { intros a Ha. apply IZR_lt in Ha. lra. }
  split.
  { intros a Ha. apply IZR_lt in Ha. lra. }
  split; [lra|].
  split; [lra|].
  split.
  { rewrite (_normalize_action_b64_ok actions agent_id _ Hact)
      by (simpl; lia).
    eauto. }
  eexists. split; [vm_compute; reflexivity|].
  split; vm_compute; reflexivity.
Qed.

Lemma C10_no_bounds_check_witness :
  _normalize_action Samples.actions_off_grid 0 =
  Ok [ IZR 50 * 2 / 40 - 1; IZR 0 * 2 / 40 - 1; IZR 0 * 2 / 40 - 1;
       IZR (-1) * 0.5 / 29 + 0.4 ]
  /\ 1 < IZR 50 * 2 / 40 - 1
  /\ IZR (-1) * 0.5 / 29 + 0.4 < 0.4.
Proof.
  destruct (C10_no_bounds_check Samples.actions_off_grid 0%nat
              50 0 0 (-1) [] eq_refl)
    as (Hval & Hhigh & _ & _ & Hlow & _).
  split; [exact Hval|].
  split; [apply Hhigh; lia | apply Hlow; lia].
Defined.

End TaskClaims.

(** * Further properties of the reward engine *)

Module RewardCoverage.
Import PostureReward AspectFacts OrientationFacts RangeFacts InitFacts.


Lemma exp_opp_inv (x : R) : exp (- x) = / exp x.
Proof. apply exp_Ropp. Qed.





(** X2.  From 7 km on, the sign term of v2 is at most 0 and never wins the
    maximum: the v2 range reward coincides with the v1 range reward. *)
Theorem X2_range_v2_is_v1_from_7 :
  forall (target_dist r : R),
    7 <= r -> range_v2 target_dist r = range_v1 target_dist r.
Proof.
  intros td r Hr. rewrite range_v2_Rmax.
  pose proof (range_v1_bounds td r) as [Hl _].
  destruct (sign_cases (7 - r)) as [[H _]|[[_ Hs]|[_ Hs]]]; [lra| |];
    rewrite Hs; unfold Rmax; destruct (Rle_dec _ _); lra.
Qed.

Lemma X2_range_v2_is_v1_from_7_witness :
  7 <= 10 /\ range_v2 3 10 = range_v1 3 10.
Proof.
  split; [lra|]. apply (X2_range_v2_is_v1_from_7 3 10). lra.
Defined.

Lemma exp_opp_0_8 : 0.2 < exp (- 0.8) < 1.
Proof.
  split.
  - pose proof (exp_ineq1 (- 0.8)) as H. lra.
  - rewrite <- exp_0. apply exp_increasing. lra.
Qed.

(** X3.  At the target distance itself the clip of v1 is inactive: for
    every target distance the v1 range reward there is
    1.2 / (1 + exp(-0.8)), strictly between 0.3 and 1, and the v0 range
    reward is 1 / (1 + exp(-4)). *)
Theorem X3_range_at_target_distance :
  forall target_dist : R,
    range_v1 target_dist target_dist = 1.2 / (1 + exp (- 0.8))
    /\ 0.3 < range_v1 target_dist target_dist < 1
    /\ range_v0 target_dist target_dist = 1 / (1 + exp (- 4)).
Proof.
  intros td. pose proof exp_opp_0_8 as [Hl Hu].
  assert (Hs : range_smooth td td = 1.2 / (1 + exp (- 0.8))).
  { unfold range_smooth, np_min2.
    replace (- (td - td) * 0.21) with 0 by lra.
    replace (- (td - td + 1) * 0.8) with (- 0.8) by lra.
    rewrite exp_0. unfold Rmin. destruct (Rle_dec 1 1); lra. }
  assert (Hb : 0.3 < 1.2 / (1 + exp (- 0.8)) < 1).
  { split.
    - apply Rmult_lt_reg_r with (1 + exp (- 0.8)); [lra|].
      unfold Rdiv. rewrite Rmult_assoc, Rinv_l; lra.
    - apply Rmult_lt_reg_r with (1 + exp (- 0.8)); [lra|].
      unfold Rdiv. rewrite Rmult_assoc, Rinv_l; lra. }
  assert (H1 : range_v1 td td = 1.2 / (1 + exp (- 0.8))).
  { unfold range_v1, Np.clip. rewrite Hs. unfold Rmin, Rmax.
    destruct (Rle_dec _ 0.3); destruct (Rle_dec _ 1); lra. }
  split; [exact H1|]. split; [rewrite H1; exact Hb|].
  unfold range_v0.
  replace (- (td - td) ^ 2 * 0.004) with 0 by (simpl; lra).
  replace (- (td - td + 2) * 2) with (- 4) by lra.
  now rewrite exp_0.
Qed.

Lemma exp_2_1 : 4 < exp 2.1.
Proof.
  replace 2.1 with (0.7 + (0.7 + 0.7)) by lra.
  rewrite !exp_plus.
  pose proof (exp_ineq1 0.7) as H. assert (H' : 1.7 < exp 0.7) by lra.
  nra.
Qed.

Lemma range_smooth_far (td r : R) :
  td + 10 <= r -> 0 < range_smooth td r < 0.3.
Proof.
  intros Hr. unfold range_smooth, np_min2.
  set (e := exp (- (r - td) * 0.21)).
  set (d := exp (- (r - td + 1) * 0.8)).
  pose proof (exp_pos (- (r - td) * 0.21)) as He. fold e in He.
  pose proof (exp_pos (- (r - td + 1) * 0.8)) as Hd. fold d in Hd.
  assert (He4 : e < / 4).
  { assert (Hle : e <= exp (Ropp 2.1)).
    { unfold e.
      destruct (Req_dec (- (r - td) * 0.21) (Ropp 2.1)) as [-> | Hne];
        [lra|]. left. apply exp_increasing. lra. }
    rewrite exp_Ropp in Hle. pose proof exp_2_1 as H4.
    assert (/ exp 2.1 < / 4) by (apply Rinv_lt_contravar; lra). lra. }
  assert (Hmin : Rmin e 1 = e).
  { unfold Rmin. destruct (Rle_dec e 1); lra. }
  rewrite Hmin. split.
  - apply Rdiv_lt_0_compat; lra.
  - apply Rmult_lt_reg_r with (1 + d); [lra|].
    unfold Rdiv. rewrite Rmult_assoc, Rinv_l; [|lra]. nra.
Qed.

(** X4.  Ten kilometres or more beyond the target distance the smooth term
    has dropped below the lower clip bound: the v1 range reward is exactly
    0.3 there, and so is the v2 range reward once the range is also at
    least 7 km. *)
Theorem X4_range_saturates_far :
  forall (target_dist r : R),
    target_dist + 10 <= r ->
    range_v1 target_dist r = 0.3
    /\ (7 <= r -> range_v2 target_dist r = 0.3).
Proof.
  intros td r Hr. pose proof (range_smooth_far td r Hr) as [H0 H3].
  assert (H1 : range_v1 td r = 0.3).
  { unfold range_v1, Np.clip, Rmin, Rmax.
    destruct (Rle_dec _ 0.3); destruct (Rle_dec _ 1); lra. }
  split; [exact H1|].
  intros H7. rewrite range_v2_Rmax, H1.
  destruct (sign_cases (7 - r)) as [[H _]|[[_ Hs]|[_ Hs]]]; [lra| |];
    rewrite Hs; unfold Rmax; destruct (Rle_dec _ _); lra.
Qed.

Lemma X4_range_saturates_far_witness :
  3 + 10 <= 13 /\ range_v1 3 13 = 0.3 /\ range_v2 3 13 = 0.3.
Proof.
  destruct (X4_range_saturates_far 3 13) as [H1 H2]; [lra|].
  split; [lra|]. split; [exact H1 | apply H2; lra].
Defined.

Lemma get_orientation_function_cases (version : string)
      (fn : R -> R -> npfloat) :
  get_orientation_function version = Ok fn ->
  (version = "v0"%string /\ fn = orientation_v0)
  \/ (version = "v1"%string /\ fn = orientation_v1)
  \/ (version = "v2"%string /\ fn = orientation_v2).
Proof.
  unfold get_orientation_function.
  destruct (String.eqb_spec version "v0") as [-> | _].
  { intros [= <-]. auto. }
  destruct (String.eqb_spec version "v1") as [-> | _].
  { intros [= <-]. auto. }
  destruct (String.eqb_spec version "v2") as [-> | _].
  { intros [= <-]. auto. }
  discriminate.
Qed.

(** The argument of [arctanh] as a function of TA. *)
Lemma aspect_unfold (TA : R) :
  aspect TA = Np.arctanh (1 - py_max (2 * TA / PI) 1e-4).
Proof. reflexivity. Qed.

Lemma ratio_bounds (TA : R) :
  0 <= TA <= PI -> 0 <= 2 * TA / PI <= 2.
Proof.
  intros [H0 H1]. pose proof PI_RGT_0 as Hpi. split.
  - apply Rmult_le_reg_r with PI; [lra|].
    unfold Rdiv. rewrite Rmult_assoc, Rinv_l; lra.
  - apply Rmult_le_reg_r with PI; [lra|].
    unfold Rdiv. rewrite Rmult_assoc, Rinv_l; lra.
Qed.

Lemma ratio_lt (TA c : R) : TA < c * PI / 2 -> 2 * TA / PI < c.
Proof.
  intros H. pose proof PI_RGT_0 as Hpi.
  apply Rmult_lt_reg_r with PI; [lra|].
  unfold Rdiv. rewrite Rmult_assoc, Rinv_l; lra.
Qed.

Lemma ratio_gt (TA c : R) : c * PI / 2 < TA -> c < 2 * TA / PI.
Proof.
  intros H. pose proof PI_RGT_0 as Hpi.
  apply Rmult_lt_reg_r with PI; [lra|].
  unfold Rdiv. rewrite Rmult_assoc, Rinv_l; lra.
Qed.

Lemma arctanh_finite (x : R) :
  -1 < x < 1 -> Np.arctanh x = Fin (ln ((1 + x) / (1 - x)) / 2).
Proof.
  intros [Hl Hu]. unfold Np.arctanh.
  destruct (Rlt_dec (-1) x); [|lra]. destruct (Rlt_dec x 1); [|lra].
  reflexivity.
Qed.

Lemma arctanh_value_sign (x : R) :
  -1 < x < 1 ->
  (0 < x -> 0 < ln ((1 + x) / (1 - x)) / 2)
  /\ (x < 0 -> ln ((1 + x) / (1 - x)) / 2 < 0)
  /\ (x = 0 -> ln ((1 + x) / (1 - x)) / 2 = 0).
Proof.
  intros [Hl Hu].
  assert (Hq : 0 < (1 + x) / (1 - x)) by (apply Rdiv_lt_0_compat; lra).
  repeat split.
  - intros Hx.
    assert (H1 : 1 < (1 + x) / (1 - x)).
    { apply Rmult_lt_reg_r with (1 - x); [lra|].
      unfold Rdiv. rewrite Rmult_assoc, Rinv_l; lra. }
    pose proof (ln_increasing 1 _ Rlt_0_1 H1) as H. rewrite ln_1 in H. lra.
  - intros Hx.
    assert (H1 : (1 + x) / (1 - x) < 1).
    { apply Rmult_lt_reg_r with (1 - x); [lra|].
      unfold Rdiv. rewrite Rmult_assoc, Rinv_l; lra. }
    pose proof (ln_increasing _ 1 Hq H1) as H. rewrite ln_1 in H. lra.
  - intros ->. replace ((1 + 0) / (1 - 0)) with 1 by (field; lra).
    rewrite ln_1. lra.
Qed.

Lemma aspect_below_pi (TA : R) :
  0 <= TA < PI ->
  exists x, aspect TA = Fin x
            /\ (TA < PI / 2 -> 0 < x)
            /\ (TA = PI / 2 -> x = 0)
            /\ (PI / 2 < TA -> x < 0).
Proof.
  intros [H0 H1]. pose proof PI_RGT_0 as Hpi.
  assert (Hr : 0 <= 2 * TA / PI < 2).
  { split; [apply ratio_bounds; lra | apply ratio_lt; lra]. }
  set (a := 1 - py_max (2 * TA / PI) 1e-4).
  assert (Ha : -1 < a < 1).
  { unfold a, py_max. destruct (Rlt_dec _ _); lra. }
  rewrite aspect_unfold. fold a. rewrite (arctanh_finite a Ha).
  destruct (arctanh_value_sign a Ha) as (Hpos & Hneg & Hzero).
  eexists; split; [reflexivity|]. repeat split.
  - intros Hlt. apply Hpos.
    assert (2 * TA / PI < 1) by (apply ratio_lt; lra).
    unfold a, py_max. destruct (Rlt_dec _ _); lra.
  - intros Heq. apply Hzero.
    assert (2 * TA / PI = 1) by (rewrite Heq; field; lra).
    unfold a, py_max. destruct (Rlt_dec _ _); lra.
  - intros Hgt. apply Hneg.
    assert (1 < 2 * TA / PI) by (apply ratio_gt; lra).
    unfold a, py_max. destruct (Rlt_dec _ _); lra.
Qed.

Lemma aspect_at_pi : aspect PI = NInf.
Proof.
  pose proof PI_RGT_0 as Hpi. rewrite aspect_unfold.
  replace (2 * PI / PI) with 2 by (field; lra).
  unfold py_max. destruct (Rlt_dec 2 1e-4); [lra|].
  unfold Np.arctanh.
  destruct (Rlt_dec (-1) (1 - 2)); [lra|].
  destruct (Req_dec_T (1 - 2) (-1)); [reflexivity | lra].
Qed.

Lemma penalty_of_fin (TA x : R) :
  aspect TA = Fin x ->
  (0 <= x -> penalty TA = Fin 0)
  /\ (x < 0 -> penalty TA = Fin (x / (2 * PI)) /\ x / (2 * PI) < 0).
Proof.
  intros Hx. pose proof two_pi_pos as Hpi.
  unfold penalty. rewrite Hx. simpl.
  destruct (Req_dec_T (2 * PI) 0); [lra|].
  unfold py_min_np. split.
  - intros H0.
    destruct (Np.lt_dec (Fin 0) (Fin (x / (2 * PI)))) as [_|Hn];
      [reflexivity|].
    simpl in Hn. f_equal.
    assert (0 <= x / (2 * PI)).
    { apply Rmult_le_reg_r with (2 * PI); [lra|].
      unfold Rdiv. rewrite Rmult_assoc, Rinv_l; lra. }
    lra.
  - intros Hneg.
    assert (Hq : x / (2 * PI) < 0).
    { apply Rmult_lt_reg_r with (2 * PI); [lra|].
      unfold Rdiv. rewrite Rmult_assoc, Rinv_l; lra. }
    destruct (Np.lt_dec (Fin 0) (Fin (x / (2 * PI)))) as [Hl|_];
      [simpl in Hl; lra|]. split; [reflexivity | exact Hq].
Qed.

Lemma penalty_at_pi : penalty PI = NInf.
Proof.
  pose proof two_pi_pos as Hpi.
  unfold penalty. rewrite aspect_at_pi. simpl.
  destruct (Rle_dec 0 (2 * PI)); [|lra].
  unfold py_min_np.
  destruct (Np.lt_dec (Fin 0) NInf) as [[]|_]. reflexivity.
Qed.

Lemma penalty_below_pi (TA : R) :
  0 <= TA < PI -> exists z, z <= 0 /\ penalty TA = Fin z.
Proof.
  intros H. destruct (aspect_below_pi TA H) as (x & Hx & _).
  destruct (penalty_of_fin TA x Hx) as [Hp Hn].
  destruct (Rle_dec 0 x) as [Hle|Hgt].
  - exists 0. split; [lra | auto].
  - destruct Hn as [-> Hq]; [lra|]. eexists; split; [|reflexivity]. lra.
Qed.

Lemma tanh_gt_m1 (x : R) : -1 < tanh x.
Proof.
  unfold tanh, sinh, cosh.
  pose proof (exp_pos x) as Hp. pose proof (exp_pos (- x)) as Hn.
  apply Rmult_lt_reg_r with ((exp x + exp (- x)) / 2); [lra|].
  unfold Rdiv at 2. rewrite Rmult_assoc, Rinv_l; lra.
Qed.

Lemma v1_factor_pos (AO : R) : 0 < (1 - tanh (2 * (AO - PI / 2))) / 2 < 1.
Proof.
  pose proof (tanh_lt_1 (2 * (AO - PI / 2))).
  pose proof (tanh_gt_m1 (2 * (AO - PI / 2))). lra.
Qed.

Lemma orientation_v1_of_fin (AO TA x : R) :
  aspect TA = Fin x ->
  orientation_v1 AO TA =
  Fin ((1 - tanh (2 * (AO - PI / 2))) / 2 * x / (2 * PI) + 0.5).
Proof.
  intros Hx. pose proof two_pi_pos as Hpi.
  unfold orientation_v1. rewrite Hx. simpl.
  destruct (Req_dec_T (2 * PI) 0); [lra | reflexivity].
Qed.

Lemma orientation_v1_at_pi (AO : R) : orientation_v1 AO PI = NInf.
Proof.
  pose proof two_pi_pos as Hpi. pose proof (v1_factor_pos AO) as [Hf _].
  unfold orientation_v1. rewrite aspect_at_pi. simpl.
  unfold Np.mul_inf. destruct (Rlt_dec 0 _); [|lra]. simpl.
  destruct (Rle_dec 0 (2 * PI)); [reflexivity | lra].
Qed.

(** X5.  On the domain AO, TA in [0, pi] no orientation version returns
    nan or +inf: the value is a finite number for every TA below pi, and
    -inf exactly at TA = pi, where the argument of arctanh is -1.  The
    floor 1e-4 keeps the argument away from the pole at +1. *)
Theorem X5_orientation_finite_below_pi :
  forall (version : string) (fn : R -> R -> npfloat) (AO TA : R),
    get_orientation_function version = Ok fn ->
    0 <= AO <= PI -> 0 <= TA <= PI ->
    (TA < PI -> exists x, fn AO TA = Fin x)
    /\ (TA = PI -> fn AO TA = NInf).
Proof.
  intros version fn AO TA Hfn [HA _] [HT0 HT1].
  destruct (get_orientation_function_cases version fn Hfn)
    as [[_ ->]|[[_ ->]|[_ ->]]].
  - rewrite orientation_v0_penalty. split.
    + intros Hlt. destruct (penalty_below_pi TA) as (z & _ & ->); [lra|].
      simpl. eauto.
    + intros ->. rewrite penalty_at_pi. reflexivity.
  - split.
    + intros Hlt. destruct (aspect_below_pi TA) as (x & Hx & _); [lra|].
      rewrite (orientation_v1_of_fin AO TA x Hx). eauto.
    + intros ->. apply orientation_v1_at_pi.
  - rewrite orientation_v2_penalty.
    destruct (closing_term AO HA) as (q & _ & ->). split.
    + intros Hlt. destruct (penalty_below_pi TA) as (z & _ & ->); [lra|].
      simpl. eauto.
    + intros ->. rewrite penalty_at_pi. reflexivity.
Qed.

Lemma X5_orientation_finite_below_pi_witness :
  get_orientation_function "v1" = Ok orientation_v1
  /\ (exists x, orientation_v1 0 0 = Fin x)
  /\ orientation_v1 0 PI = NInf.
Proof.
  assert (H0 : 0 <= 0 <= PI) by (pose proof PI_RGT_0; lra).
  assert (H1 : 0 <= PI <= PI) by (pose proof PI_RGT_0; lra).
  split; [reflexivity|]. split.
  - destruct (X5_orientation_finite_below_pi "v1" orientation_v1 0 0
                eq_refl H0 H0) as [Hfin _].
    apply Hfin. pose proof PI_RGT_0; lra.
  - destruct (X5_orientation_finite_below_pi "v1" orientation_v1 0 PI
                eq_refl H0 H1) as [_ Hinf].
    apply Hinf. reflexivity.
Defined.

(** X6.  Below the floor the reward is flat in TA: for every TA with
    2 * TA / pi <= 1e-4 the arctanh term is the one of TA = 0, so each
    orientation version returns the value it has at TA = 0. *)
Theorem X6_orientation_flat_below_floor :
  forall (version : string) (fn : R -> R -> npfloat) (AO TA : R),
    get_orientation_function version = Ok fn ->
    0 <= TA <= 1e-4 * PI / 2 ->
    aspect TA = aspect 0 /\ fn AO TA = fn AO 0.
Proof.
  intros version fn AO TA Hfn [H0 H1]. pose proof PI_RGT_0 as Hpi.
  assert (Ha : aspect TA = aspect 0).
  { rewrite !aspect_unfold. f_equal. f_equal.
    assert (Hr : 2 * TA / PI <= 1e-4).
    { apply Rmult_le_reg_r with PI; [lra|].
      unfold Rdiv. rewrite Rmult_assoc, Rinv_l; lra. }
    replace (2 * 0 / PI) with 0 by (field; lra).
    unfold py_max.
    destruct (Rlt_dec (2 * TA / PI) 1e-4); destruct (Rlt_dec 0 1e-4); lra. }
  split; [exact Ha|].
  destruct (get_orientation_function_cases version fn Hfn)
    as [[_ ->]|[[_ ->]|[_ ->]]].
  - unfold orientation_v0. now rewrite Ha.
  - unfold orientation_v1. now rewrite Ha.
  - unfold orientation_v2. now rewrite Ha.
Qed.

Lemma X6_orientation_flat_below_floor_witness :
  get_orientation_function "v2" = Ok orientation_v2
  /\ 0 <= 1e-5 <= 1e-4 * PI / 2
  /\ aspect 1e-5 = aspect 0
  /\ orientation_v2 1 1e-5 = orientation_v2 1 0.
Proof.
  assert (H : 0 <= 1e-5 <= 1e-4 * PI / 2).
  { pose proof PI2_1 as Hp. lra. }
  split; [reflexivity|]. split; [exact H|].
  apply (X6_orientation_flat_below_floor "v2" orientation_v2 1 1e-5).
  - reflexivity.
  - exact H.
Defined.



Lemma exp_opp_mul (x : R) : exp x * exp (- x) = 1.
Proof. rewrite <- exp_plus, Rplus_opp_r. apply exp_0. Qed.






















(** X12.  The two-agent assertion is checked before any version tag is
    looked at: with an agent count other than 2, construction raises the
    AssertionError of [__init__] for every configuration, also one whose
    tags are unknown. *)
Theorem X12_assertion_precedes_dispatch :
  forall (num_agents : Z) (config : Config),
    num_agents <> 2%Z ->
    __init__ num_agents config =
    Raise (AssertionError
             "PostureReward only support one-to-one environments but current env has more than 2 agents!").
Proof.
  intros n config Hn. unfold __init__.
  apply Z.eqb_neq in Hn. now rewrite Hn.
Qed.

Lemma X12_assertion_precedes_dispatch_witness :
  3%Z <> 2%Z
  /\ __init__ 3 Samples.config_unknown =
     Raise (AssertionError
              "PostureReward only support one-to-one environments but current env has more than 2 agents!").
Proof.
  assert (H : 3%Z <> 2%Z) by discriminate.
  split; [exact H|].
  apply (X12_assertion_precedes_dispatch 3 Samples.config_unknown H).
Defined.

(** X13.  With two agents the orientation tag is dispatched before the
    range tag and the error names the offending tag: an unknown
    orientation tag raises "Unknown orientation function version: <tag>"
    whatever the range tag is, and an unknown range tag raises
    "Unknown range function version: <tag>" only when the orientation tag
    is recognised. *)
Theorem X13_error_names_first_unknown_tag :
  forall (config : Config),
    let ov :=
      getattr (PostureReward_orientation_version config) "v2"%string in
    let rv :=
      getattr (PostureReward_range_version config) "v2"%string in
    (recognized ov = false ->
     __init__ 2 config =
     Raise (NotImplementedError
              ("Unknown orientation function version: " ++ ov)))
    /\ (recognized ov = true -> recognized rv = false ->
        __init__ 2 config =
        Raise (NotImplementedError
                 ("Unknown range function version: " ++ rv))).
Proof.
  intros config ov rv. split.
  - intros Ho. unfold __init__. simpl Z.eqb. cbv iota. fold ov.
    now rewrite (get_orientation_function_unknown ov Ho).
  - intros Ho Hr. unfold __init__. simpl Z.eqb. cbv iota. fold ov rv.
    destruct (get_orientation_function_recognized ov Ho) as [ofn ->].
    simpl bind. now rewrite (get_range_funtion_unknown _ rv Hr).
Qed.

Lemma X13_error_names_first_unknown_tag_witness :
  __init__ 2 Samples.config_unknown =
  Raise (NotImplementedError "Unknown orientation function version: v3")
  /\ __init__ 2 MoreSamples.config_bad_range =
     Raise (NotImplementedError "Unknown range function version: v9").
Proof.
  destruct (X13_error_names_first_unknown_tag Samples.config_unknown)
    as [Ho _].
  destruct (X13_error_names_first_unknown_tag MoreSamples.config_bad_range)
    as [_ Hr].
  split; [apply Ho; reflexivity | apply Hr; reflexivity].
Defined.

End RewardCoverage.

(** * Further properties of the task *)

Module TaskCoverage.
Import SingleCombatTask ObservationFacts ActionFacts.

Lemma for_range_ext {A : Type} (f g : nat -> result A) (k n : nat) :
  (forall i, f i = g i) -> for_range f k n = for_range g k n.
Proof.
  intros H. revert k. induction n as [|n IH]; intros k; simpl;
    [reflexivity|].
  now rewrite H, IH.
Qed.

Lemma for_range_two_raise {A : Type} (f : nat -> result A) (e : exn) :
  for_range f 0 2 = Raise e -> f 0%nat = Raise e \/ f 1%nat = Raise e.
Proof.
  simpl. destruct (f 0%nat) as [a|e0]; [|intros [= ->]; auto].
  destruct (f 1%nat) as [b|e1]; [discriminate | intros [= ->]; auto].
Qed.

Lemma Ok_inj {A : Type} (a b : A) : Ok a = Ok b -> a = b.
Proof. now intros [= ->]. Qed.

Lemma norm_scale3 (a b c k : R) :
  0 <= k ->
  np_linalg_norm [a * k; b * k; c * k] = k * sqrt (a * a + b * b + c * c).
Proof.
  intros Hk. unfold np_linalg_norm, sum_sq. simpl.
  replace (a * k * (a * k) + (b * k * (b * k) + (c * k * (c * k) + 0)))
    with (k * k * (a * a + b * b + c * c)) by ring.
  rewrite sqrt_mult_alt by nra.
  now rewrite sqrt_square by exact Hk.
Qed.

Lemma nth_assign_other {A : Type} (a : list A) (k j : nat) (v d : A) :
  j <> k -> nth j (assign a k v) d = nth j a d.
Proof.
  revert k j. induction a as [|x a IH]; intros [|k] [|j] H; simpl;
    try reflexivity; try congruence.
  apply IH. congruence.
Qed.

Lemma length_assign {A : Type} (a : list A) (k : nat) (v : A) :
  List.length (assign a k v) = List.length a.
Proof.
  revert k. induction a as [|x a IH]; intros [|k]; simpl; auto.
Qed.

Section Observation.
Variable lonlat2dis : R -> R -> R -> R -> R * R.
Variables geometry_AO geometry_TA geometry_side : list R -> list R -> R.

Let normalize :=
  _normalize_observation lonlat2dis geometry_AO geometry_TA geometry_side.
Let normalize_all :=
  normalize_observation lonlat2dis geometry_AO geometry_TA geometry_side.

Lemma normalize_raise env observations agent_id e :
  normalize env observations agent_id = Raise e -> e = IndexError.
Proof.
  unfold normalize, _normalize_observation, item.
  destruct (nth_error observations agent_id) as [ego|];
    [|simpl; congruence].
  destruct (nth_error observations ((agent_id + 1) mod num_agents))
    as [enm|]; [|simpl; congruence].
  cbv beta iota zeta delta [bind].
  destruct ((13 <=? List.length ego)%nat && (9 <=? List.length enm)%nat);
    [|congruence].
  destruct (lonlat2dis (nth 0 ego 0) _ _ _).
  destruct (lonlat2dis (nth 0 enm 0) _ _ _).
  discriminate.
Qed.

(** The two rows of a successful call and the readings they came from. *)
Lemma rows_inv env observations rows :
  normalize_all env observations = Ok rows ->
  exists s0 s1 rest o0 o1,
    observations = s0 :: s1 :: rest
    /\ (13 <= List.length s0)%nat /\ (13 <= List.length s1)%nat
    /\ rows = [o0; o1]
    /\ normalize env observations 0%nat = Ok o0
    /\ normalize env observations 1%nat = Ok o1.
Proof.
  intros H. unfold normalize_all, normalize_observation, num_agents in H.
  apply for_range_two_inv in H as (a & b & Ha & Hb & ->).
  destruct (TaskClaims.normalize_inv _ _ _ _ _ _ _ _ Ha)
    as (s0 & s1 & E0 & E1 & L0 & _).
  destruct (TaskClaims.normalize_inv _ _ _ _ _ _ _ _ Hb)
    as (t1 & _ & F1 & _ & M1 & _).
  change ((0 + 1) mod num_agents)%nat with 1%nat in E1.
  assert (t1 = s1) by congruence. subst t1.
  destruct observations as [|x0 [|x1 rest]]; try discriminate.
  simpl in E0, E1. injection E0 as ->. injection E1 as ->.
  exists s0, s1, rest, a, b. repeat split; assumption.
Qed.

Lemma rows_ok env s0 s1 rest :
  (13 <= List.length s0)%nat -> (13 <= List.length s1)%nat ->
  exists o0 o1,
    normalize_all env (s0 :: s1 :: rest) = Ok [o0; o1]
    /\ List.length o0 = observation_shape
    /\ List.length o1 = observation_shape.
Proof.
  intros L0 L1. eexists; eexists. split; [|split].
  - apply normalize_observation_pair.
    + apply (normalize_entries _ _ _ _ env _ 0%nat s0 s1);
        try reflexivity; lia.
    + apply (normalize_entries _ _ _ _ env _ 1%nat s1 s0);
        try reflexivity; lia.
  - reflexivity.
  - reflexivity.
Qed.

(** X14.  [normalize_observation] returns exactly when the observation
    holds readings for two aircraft, each with at least the thirteen state
    variables; it then returns one row per agent, each of the eighteen
    entries of the declared observation space.  In every other case it
    raises IndexError and nothing else. *)
Theorem X14_observation_shape_and_errors :
  forall (env : Env) (observations : list (list R)),
    ((exists rows, normalize_all env observations = Ok rows)
     <-> (exists s0 s1 rest,
             observations = s0 :: s1 :: rest
             /\ (13 <= List.length s0)%nat /\ (13 <= List.length s1)%nat))
    /\ (forall rows,
           normalize_all env observations = Ok rows ->
           List.length rows = num_agents
           /\ Forall (fun o => List.length o = observation_shape) rows)
    /\ (forall e,
           normalize_all env observations = Raise e -> e = IndexError).
Proof.
  intros env observations. split; [split|split].
  - intros [rows H].
    destruct (rows_inv env observations rows H)
      as (s0 & s1 & rest & _ & _ & -> & L0 & L1 & _).
    exists s0, s1, rest. repeat split; assumption.
  - intros (s0 & s1 & rest & -> & L0 & L1).
    destruct (rows_ok env s0 s1 rest L0 L1) as (o0 & o1 & H & _). eauto.
  - intros rows H.
    destruct (rows_inv env observations rows H)
      as (s0 & s1 & rest & o0 & o1 & -> & L0 & L1 & -> & H0 & H1).
    destruct (rows_ok env s0 s1 rest L0 L1) as (p0 & p1 & Hp & Lp0 & Lp1).
    fold normalize_all in H. rewrite Hp in H. injection H as <- <-.
    split; [reflexivity|]. repeat constructor; assumption.
  - intros e H. unfold normalize_all, normalize_observation, num_agents in H.
    apply for_range_two_raise in H as [H | H];
      exact (normalize_raise _ _ _ _ H).
Qed.

(** X15.  In every returned row the entries 3, 4 and 5, 6 are the sine and
    cosine of one angle (roll, pitch): each pair lies on the unit circle
    and each entry in [-1, 1], whatever the raw angles are. *)
Theorem X15_attitude_entries_on_unit_circle :
  forall (env : Env) (observations rows : list (list R)) (o : list R),
    normalize_all env observations = Ok rows ->
    In o rows ->
    nth 3 o 0 * nth 3 o 0 + nth 4 o 0 * nth 4 o 0 = 1
    /\ nth 5 o 0 * nth 5 o 0 + nth 6 o 0 * nth 6 o 0 = 1
    /\ -1 <= nth 3 o 0 <= 1 /\ -1 <= nth 4 o 0 <= 1
    /\ -1 <= nth 5 o 0 <= 1 /\ -1 <= nth 6 o 0 <= 1.
Proof.
  intros env observations rows o H Hin.
  destruct (rows_inv env observations rows H)
    as (s0 & s1 & rest & o0 & o1 & -> & L0 & L1 & -> & H0 & H1).
  unfold normalize in H0, H1.
  rewrite (normalize_entries _ _ _ _ env _ 0%nat s0 s1) in H0
    by (reflexivity || lia).
  rewrite (normalize_entries _ _ _ _ env _ 1%nat s1 s0) in H1
    by (reflexivity || lia).
  injection H0 as <-. injection H1 as <-.
  assert (Hcircle : forall x, sin x * sin x + cos x * cos x = 1).
  { intro x. pose proof (sin2_cos2 x) as Hx. unfold Rsqr in Hx. exact Hx. }
  destruct Hin as [<- | [<- | []]]; cbn [nth];
    repeat split;
    try apply Hcircle;
    try (apply SIN_bound); try (apply COS_bound).
Qed.

(** X16.  Entries 1 and 16 are the speeds of the agent and of its opponent
    in the unit of the feature array: 0.304 / 340 times the Euclidean norm
    of the three raw velocity readings, hence never negative. *)
Theorem X16_speed_entries :
  forall (env : Env) (s0 s1 : list R) (rest : list (list R))
         (o0 o1 : list R),
    normalize_all env (s0 :: s1 :: rest) = Ok [o0; o1] ->
    let speed := fun s =>
      0.304 / 340 * sqrt (nth 6 s 0 * nth 6 s 0 + nth 7 s 0 * nth 7 s 0
                          + nth 8 s 0 * nth 8 s 0) in
    nth 1 o0 0 = speed s0 /\ nth 16 o0 0 = speed s1
    /\ nth 1 o1 0 = speed s1 /\ nth 16 o1 0 = speed s0
    /\ 0 <= nth 1 o0 0 /\ 0 <= nth 1 o1 0.
Proof.
  intros env s0 s1 rest o0 o1 H speed.
  destruct (rows_inv env _ _ H)
    as (t0 & t1 & rest' & p0 & p1 & E & L0 & L1 & Er & H0 & H1).
  injection E as <- <- <-. injection Er as <- <-.
  unfold normalize in H0, H1.
  rewrite (normalize_entries _ _ _ _ env _ 0%nat s0 s1) in H0
    by (reflexivity || lia).
  rewrite (normalize_entries _ _ _ _ env _ 1%nat s1 s0) in H1
    by (reflexivity || lia).
  apply Ok_inj in H0, H1. subst o0 o1.
  assert (Hs : forall s,
             np_linalg_norm (skipn 3 (feature lonlat2dis env s)) = speed s).
  { intro s. unfold feature. destruct (lonlat2dis _ _ _ _) as [e n].
    cbn [skipn]. unfold speed.
    replace (nth 6 s 0 * 0.304 / 340) with (nth 6 s 0 * (0.304 / 340))
      by lra.
    replace (nth 7 s 0 * 0.304 / 340) with (nth 7 s 0 * (0.304 / 340))
      by lra.
    replace (nth 8 s 0 * 0.304 / 340) with (nth 8 s 0 * (0.304 / 340))
      by lra.
    apply norm_scale3. lra. }
  assert (Hpos : forall s, 0 <= speed s).
  { intro s. unfold speed. pose proof (sqrt_pos
      (nth 6 s 0 * nth 6 s 0 + nth 7 s 0 * nth 7 s 0
       + nth 8 s 0 * nth 8 s 0)). nra. }
  cbn [nth]. rewrite !Hs. repeat split; try reflexivity; apply Hpos.
Qed.

(** X17.  The heading reading (index 5 of the raw state) is never used:
    replacing it in every aircraft's readings by any other value leaves the
    result of [normalize_observation] unchanged, be it rows or an
    error. *)
Theorem X17_heading_is_not_observed :
  forall (env : Env) (observations : list (list R)) (y : list R -> R),
    normalize_all env (map (fun s => assign s 5 (y s)) observations)
    = normalize_all env observations.
Proof.
  intros env observations y.
  unfold normalize_all, normalize_observation.
  apply for_range_ext. intros i.
  unfold _normalize_observation, item. rewrite !nth_error_map.
  destruct (nth_error observations i) as [ego|]; [|reflexivity].
  destruct (nth_error observations ((i + 1) mod num_agents)) as [enm|];
    [|reflexivity].
  cbv beta iota zeta delta [bind option_map].
  rewrite !length_assign.
  destruct ((13 <=? List.length ego)%nat && (9 <=? List.length enm)%nat);
    [|reflexivity].
  rewrite !nth_assign_other by discriminate.
  reflexivity.
Qed.

(** X18.  The first eleven entries of a row describe the agent alone: a
    different opponent (or other further aircraft) leaves entries 0 to 10
    of agent 0 unchanged, and a different first aircraft leaves entries 0
    to 10 of agent 1 unchanged. *)
Theorem X18_ego_block_ignores_opponent :
  forall (env : Env) (s0 s1 t0 t1 : list R) (rest rest' : list (list R))
         (o0 o1 p0 p1 q0 q1 : list R),
    normalize_all env (s0 :: s1 :: rest) = Ok [o0; o1] ->
    normalize_all env (s0 :: t1 :: rest') = Ok [p0; p1] ->
    normalize_all env (t0 :: s1 :: rest') = Ok [q0; q1] ->
    firstn 11 o0 = firstn 11 p0 /\ firstn 11 o1 = firstn 11 q1.
Proof.
  intros env s0 s1 t0 t1 rest rest' o0 o1 p0 p1 q0 q1 Ho Hp Hq.
  destruct (rows_inv env _ _ Ho)
    as (? & ? & ? & ? & ? & Eo & Lo0 & Lo1 & Ero & Ho0 & Ho1).
  injection Eo as <- <- <-. injection Ero as <- <-.
  destruct (rows_inv env _ _ Hp)
    as (? & ? & ? & ? & ? & Ep & Lp0 & Lp1 & Erp & Hp0 & Hp1).
  injection Ep as <- <- <-. injection Erp as <- <-.
  destruct (rows_inv env _ _ Hq)
    as (? & ? & ? & ? & ? & Eq & Lq0 & Lq1 & Erq & Hq0 & Hq1).
  injection Eq as <- <- <-. injection Erq as <- <-.
  unfold normalize in Ho0, Ho1, Hp0, Hq1.
  rewrite (normalize_entries _ _ _ _ env _ 0%nat s0 s1) in Ho0
    by (reflexivity || lia).
  rewrite (normalize_entries _ _ _ _ env _ 1%nat s1 s0) in Ho1
    by (reflexivity || lia).
  rewrite (normalize_entries _ _ _ _ env _ 0%nat s0 t1) in Hp0
    by (reflexivity || lia).
  rewrite (normalize_entries _ _ _ _ env _ 1%nat s1 t0) in Hq1
    by (reflexivity || lia).
  apply Ok_inj in Ho0, Ho1, Hp0, Hq1. subst o0 o1 p0 q1.
  split; reflexivity.
Qed.

End Observation.

Lemma X14_observation_shape_and_errors_witness :
  (exists rows, Samples.normalized = Ok rows)
  /\ List.length [Samples.row 0; Samples.row 1] = num_agents
  /\ Forall (fun o => List.length o = observation_shape)
            [Samples.row 0; Samples.row 1]
  /\ normalize_observation Samples.lonlat2dis Samples.no_angle
       Samples.no_angle Samples.no_angle Samples.env
       [MoreSamples.truncated; Samples.level] = Raise IndexError.
Proof.
  destruct (X14_observation_shape_and_errors
              Samples.lonlat2dis Samples.no_angle Samples.no_angle
              Samples.no_angle Samples.env
              [Samples.descending; Samples.level])
    as (Hiff & Hshape & _).
  destruct (X14_observation_shape_and_errors
              Samples.lonlat2dis Samples.no_angle Samples.no_angle
              Samples.no_angle Samples.env
              [MoreSamples.truncated; Samples.level])
    as (_ & _ & Hraise).
  split.
  { apply Hiff. exists Samples.descending, Samples.level, [].
    repeat split; simpl; lia. }
  split; [apply (Hshape [Samples.row 0; Samples.row 1]); reflexivity|].
  split; [apply (Hshape [Samples.row 0; Samples.row 1]); reflexivity|].
  reflexivity.
Defined.

Lemma X15_attitude_entries_on_unit_circle_witness :
  In (Samples.row 0) [Samples.row 0; Samples.row 1]
  /\ nth 3 (Samples.row 0) 0 * nth 3 (Samples.row 0) 0
     + nth 4 (Samples.row 0) 0 * nth 4 (Samples.row 0) 0 = 1
  /\ -1 <= nth 6 (Samples.row 0) 0 <= 1.
Proof.
  assert (Hin : In (Samples.row 0) [Samples.row 0; Samples.row 1])
    by (left; reflexivity).
  destruct (X15_attitude_entries_on_unit_circle
              Samples.lonlat2dis Samples.no_angle Samples.no_angle
              Samples.no_angle Samples.env
              [Samples.descending; Samples.level]
              [Samples.row 0; Samples.row 1] (Samples.row 0)
              eq_refl Hin)
    as (Hroll & _ & _ & _ & _ & Hcos).
  split; [exact Hin|]. split; [exact Hroll | exact Hcos].
Defined.

Lemma X16_speed_entries_witness :
  Samples.normalized = Ok [Samples.row 0; Samples.row 1]
  /\ nth 1 (Samples.row 0) 0
     = 0.304 / 340 * sqrt (800 * 800 + 0 * 0 + 100 * 100)
  /\ 0 <= nth 1 (Samples.row 1) 0.
Proof.
  destruct (X16_speed_entries
              Samples.lonlat2dis Samples.no_angle Samples.no_angle
              Samples.no_angle Samples.env
              Samples.descending Samples.level []
              (Samples.row 0) (Samples.row 1) eq_refl)
    as (Hs & _ & _ & _ & _ & Hpos).
  split; [reflexivity|]. split; [exact Hs | exact Hpos].
Defined.

Lemma X18_ego_block_ignores_opponent_witness :
  firstn 11 (Samples.row 0)
  = firstn 11 (MoreSamples.row_of MoreSamples.normalized_other_opponent 0)
  /\ firstn 11 (Samples.row 1)
     = firstn 11 (MoreSamples.row_of MoreSamples.normalized_other_first 1).
Proof.
  apply (X18_ego_block_ignores_opponent
           Samples.lonlat2dis Samples.no_angle Samples.no_angle
           Samples.no_angle Samples.env
           Samples.descending Samples.level
           Samples.very_high Samples.very_high [] []
           (Samples.row 0) (Samples.row 1)
           (MoreSamples.row_of MoreSamples.normalized_other_opponent 0)
           (MoreSamples.row_of MoreSamples.normalized_other_opponent 1)
           (MoreSamples.row_of MoreSamples.normalized_other_first 0)
           (MoreSamples.row_of MoreSamples.normalized_other_first 1));
    reflexivity.
Defined.

(** ** Actions *)

Lemma sampled_inv (act : list Z) :
  Space.sampled act ->
  exists a0 a1 a2 a3,
    act = [a0; a1; a2; a3]
    /\ (0 <= a0 < 41)%Z /\ (0 <= a1 < 41)%Z /\ (0 <= a2 < 41)%Z
    /\ (0 <= a3 < 30)%Z.
Proof.
  unfold Space.sampled, nvec. intros H.
  inversion H as [|a0 n0 l0 m0 H0 T0]; subst.
  inversion T0 as [|a1 n1 l1 m1 H1 T1]; subst.
  inversion T1 as [|a2 n2 l2 m2 H2 T2]; subst.
  inversion T2 as [|a3 n3 l3 m3 H3 T3]; subst.
  inversion T3; subst.
  exists a0, a1, a2, a3. repeat split; lia.
Qed.

Lemma surface_value (i : Z) :
  Space.surface i = ActionMapper.dequantize 41 (-1) 1 i.
Proof.
  unfold Space.surface.
  rewrite (_normalize_action_ok [[i; 0; 0; 0]%Z] 0 [i; 0; 0; 0]%Z eq_refl)
    by (simpl; lia).
  reflexivity.
Qed.

Lemma throttle_value (j : Z) :
  Space.throttle j = ActionMapper.dequantize 30 0.4 0.9 j.
Proof.
  unfold Space.throttle.
  rewrite (_normalize_action_ok [[0; 0; 0; j]%Z] 0 [0; 0; 0; j]%Z eq_refl)
    by (simpl; lia).
  reflexivity.
Qed.

Lemma surface_b64_value (i : Z) :
  Space.surface_b64 i =
  ActionMapper.dequantize_b64 41 (B64.of_Z (-1)) (B64.of_Z 1) i.
Proof.
  unfold Space.surface_b64.
  rewrite (_normalize_action_b64_ok [[i; 0; 0; 0]%Z] 0 [i; 0; 0; 0]%Z
             eq_refl) by (simpl; lia).
  reflexivity.
Qed.

Lemma throttle_b64_value (j : Z) :
  Space.throttle_b64 j =
  ActionMapper.dequantize_b64 30 B64.lit_0_4 B64.lit_0_9 j.
Proof.
  unfold Space.throttle_b64.
  rewrite (_normalize_action_b64_ok [[0; 0; 0; j]%Z] 0 [0; 0; 0; j]%Z
             eq_refl) by (simpl; lia).
  reflexivity.
Qed.

Lemma surface_closed (i : Z) : Space.surface i = IZR i / 20 - 1.
Proof. rewrite surface_value. apply dequantize_surface_value. Qed.

Lemma throttle_closed (j : Z) : Space.throttle j = IZR j / 58 + 0.4.
Proof. rewrite throttle_value. apply dequantize_throttle_value. Qed.

Lemma surface_in_range_b64_grid :
  forallb Space.surface_in_range_b64 (Grid.indices 41) = true.
Proof. vm_compute. reflexivity. Qed.

Lemma throttle_in_range_b64_grid :
  forallb Space.throttle_in_range_b64 (Grid.indices 30) = true.
Proof. vm_compute. reflexivity. Qed.

Lemma increasing_surface_b64_grid :
  forallb Space.increasing_surface_b64 (Grid.indices 40) = true.
Proof. vm_compute. reflexivity. Qed.

Lemma increasing_throttle_b64_grid :
  forallb Space.increasing_throttle_b64 (Grid.indices 29) = true.
Proof. vm_compute. reflexivity. Qed.

(** Every row is mapped entry by entry by the two grid functions. *)
Lemma row_by_entries actions agent_id a0 a1 a2 a3 more :
  nth_error actions agent_id = Some (a0 :: a1 :: a2 :: a3 :: more) ->
  _normalize_action actions agent_id =
  Ok [Space.surface a0; Space.surface a1; Space.surface a2;
      Space.throttle a3]
  /\ _normalize_action_b64 actions agent_id =
     Ok [Space.surface_b64 a0; Space.surface_b64 a1; Space.surface_b64 a2;
         Space.throttle_b64 a3].
Proof.
  intros Hact. rewrite !surface_value, throttle_value.
  rewrite !surface_b64_value, throttle_b64_value. split.
  - rewrite (_normalize_action_ok actions agent_id _ Hact) by (simpl; lia).
    reflexivity.
  - rewrite (_normalize_action_b64_ok actions agent_id _ Hact)
      by (simpl; lia).
    reflexivity.
Qed.

(** X19.  Every action row drawn from the declared action space
    MultiDiscrete([41, 41, 41, 30]) is mapped into the control ranges
    documented beside [action_var]: aileron, elevator and rudder in
    [-1, 1] and throttle in [0.4, 0.9], over the reals and in binary64. *)
Theorem X19_sampled_actions_stay_in_range :
  forall (actions : list (list Z)) (agent_id : nat) (act : list Z),
    nth_error actions agent_id = Some act ->
    Space.sampled act ->
    (exists a e r t,
        _normalize_action actions agent_id = Ok [a; e; r; t]
        /\ -1 <= a <= 1 /\ -1 <= e <= 1 /\ -1 <= r <= 1
        /\ 0.4 <= t <= 0.9)
    /\ (exists a e r t,
           _normalize_action_b64 actions agent_id = Ok [a; e; r; t]
           /\ SFleb (B64.of_Z (-1)) a && SFleb a (B64.of_Z 1) = true
           /\ SFleb (B64.of_Z (-1)) e && SFleb e (B64.of_Z 1) = true
           /\ SFleb (B64.of_Z (-1)) r && SFleb r (B64.of_Z 1) = true
           /\ SFleb B64.lit_0_4 t && SFleb t B64.lit_0_9 = true).
Proof.
  intros actions agent_id act Hact Hs.
  destruct (sampled_inv act Hs) as (a0 & a1 & a2 & a3 & -> & H0 & H1 & H2 & H3).
  destruct (row_by_entries actions agent_id a0 a1 a2 a3 [] Hact)
    as [Hr Hb].
  assert (Hsurf : forall i, (0 <= i < 41)%Z -> -1 <= Space.surface i <= 1).
  { intros i [Hl Hu]. rewrite surface_closed.
    apply IZR_le in Hl. assert (Hu' : (i <= 40)%Z) by lia.
    apply IZR_le in Hu'. lra. }
  assert (Hthr : forall j, (0 <= j < 30)%Z -> 0.4 <= Space.throttle j <= 0.9).
  { intros j [Hl Hu]. rewrite throttle_closed.
    apply IZR_le in Hl. assert (Hu' : (j <= 29)%Z) by lia.
    apply IZR_le in Hu'. lra. }
  split.
  - exists (Space.surface a0), (Space.surface a1), (Space.surface a2),
      (Space.throttle a3).
    split; [exact Hr|]. repeat split;
      try (apply Hsurf; assumption); apply Hthr; assumption.
  - exists (Space.surface_b64 a0), (Space.surface_b64 a1),
      (Space.surface_b64 a2), (Space.throttle_b64 a3).
    split; [exact Hb|].
    pose proof (grid_forall _ _ surface_in_range_b64_grid) as Gs.
    pose proof (grid_forall _ _ throttle_in_range_b64_grid) as Gt.
    unfold Space.surface_in_range_b64 in Gs.
    unfold Space.throttle_in_range_b64 in Gt.
    repeat split; [apply Gs | apply Gs | apply Gs | apply Gt]; assumption.
Qed.

Lemma X19_sampled_actions_stay_in_range_witness :
  Space.sampled [0; 40; 20; 29]%Z
  /\ (exists a e r t,
         _normalize_action Samples.actions_on_grid 0 = Ok [a; e; r; t]
         /\ -1 <= a <= 1 /\ -1 <= e <= 1 /\ -1 <= r <= 1
         /\ 0.4 <= t <= 0.9).
Proof.
  assert (Hs : Space.sampled [0; 40; 20; 29]%Z).
  { unfold Space.sampled, nvec. repeat constructor; lia. }
  split; [exact Hs|].
  destruct (X19_sampled_actions_stay_in_range
              Samples.actions_on_grid 0%nat [0; 40; 20; 29]%Z eq_refl Hs)
    as [Hreal _].
  exact Hreal.
Defined.

(** X20.  The three control surfaces share one mapping and the throttle
    has its own; both are affine in the index with steps 1/20 and 1/58, so
    a larger index always gives a strictly larger command and no two
    indices share a value.  In binary64 each step of either grid is
    strictly increasing as well. *)
Theorem X20_mapping_is_strictly_increasing :
  forall (actions : list (list Z)) (agent_id : nat) (a0 a1 a2 a3 : Z)
         (more : list Z) (i j : Z),
    nth_error actions agent_id = Some (a0 :: a1 :: a2 :: a3 :: more) ->
    (_normalize_action actions agent_id =
     Ok [Space.surface a0; Space.surface a1; Space.surface a2;
         Space.throttle a3]
     /\ _normalize_action_b64 actions agent_id =
        Ok [Space.surface_b64 a0; Space.surface_b64 a1;
            Space.surface_b64 a2; Space.throttle_b64 a3])
    /\ Space.surface j - Space.surface i = IZR (j - i) / 20
    /\ Space.throttle j - Space.throttle i = IZR (j - i) / 58
    /\ ((i < j)%Z ->
        Space.surface i < Space.surface j
        /\ Space.throttle i < Space.throttle j)
    /\ ((0 <= i < 40)%Z -> Space.increasing_surface_b64 i = true)
    /\ ((0 <= j < 29)%Z -> Space.increasing_throttle_b64 j = true).
Proof.
  intros actions agent_id a0 a1 a2 a3 more i j Hact.
  split; [apply (row_by_entries _ _ _ _ _ _ more Hact)|].
  rewrite !surface_closed, !throttle_closed, minus_IZR.
  split; [lra|]. split; [lra|]. split.
  - intros Hij. apply IZR_lt in Hij. lra.
  - split.
    + apply (grid_forall _ _ increasing_surface_b64_grid).
    + apply (grid_forall _ _ increasing_throttle_b64_grid).
Qed.

Lemma X20_mapping_is_strictly_increasing_witness :
  _normalize_action Samples.actions_on_grid 0 =
  Ok [Space.surface 0; Space.surface 40; Space.surface 20;
      Space.throttle 29]
  /\ Space.surface 3 < Space.surface 4
  /\ Space.increasing_surface_b64 3 = true
  /\ Space.increasing_throttle_b64 4 = true.
Proof.
  destruct (X20_mapping_is_strictly_increasing
              Samples.actions_on_grid 0%nat 0 40 20 29 [] 3 4 eq_refl)
    as ((Hrow & _) & _ & _ & Hlt & Hs & Ht).
  split; [exact Hrow|].
  split; [apply Hlt; lia|].
  split; [apply Hs; lia | apply Ht; lia].
Defined.

(** X21.  Over the reals the control-surface grid is symmetric about its
    neutral index 20: index 40 - i maps to the negation of the value of
    index i, and index 20 maps to 0.  As the code computes it in binary64
    index 20 still maps to +0, but the mirror image is exact at 25 of the
    41 indices only; it fails at the sixteen indices listed, where the two
    values differ in the last bit. *)
Theorem X21_surface_grid_mirror :
  (forall i : Z, Space.surface (40 - i) = - Space.surface i)
  /\ Space.surface 20 = 0
  /\ Space.surface_b64 20 = S754_zero false
  /\ filter (fun i => negb (Space.mirrored_b64 i)) (Grid.indices 41)
     = [2; 3; 7; 8; 12; 13; 17; 18; 22; 23; 27; 28; 32; 33; 37; 38]%Z.
Proof.
  split.
  { intros i. rewrite !surface_closed, minus_IZR. lra. }
  split; [rewrite surface_closed; lra|].
  split; vm_compute; reflexivity.
Qed.

Lemma normalize_action_raise actions agent_id e :
  _normalize_action actions agent_id = Raise e -> e = IndexError.
Proof.
  unfold _normalize_action, item.
  destruct (nth_error actions agent_id) as [act|]; [|simpl; congruence].
  cbv beta iota zeta delta [bind].
  destruct (4 <=? List.length act)%nat; [discriminate | congruence].
Qed.

Lemma normalize_action_ok_inv actions agent_id row :
  _normalize_action actions agent_id = Ok row ->
  exists act, nth_error actions agent_id = Some act
              /\ (4 <= List.length act)%nat /\ List.length row = 4%nat.
Proof.
  unfold _normalize_action, item.
  destruct (nth_error actions agent_id) as [act|]; [|discriminate].
  cbv beta iota zeta delta [bind].
  destruct (4 <=? List.length act)%nat eqn:Hl; [|discriminate].
  intros H. apply Ok_inj in H. subst row.
  exists act. apply Nat.leb_le in Hl. repeat split; auto.
Qed.

(** X22.  [normalize_action] returns exactly when the action list holds
    rows for two agents with at least four indices each; it then returns
    one row of four commands per agent.  In every other case it raises
    IndexError and nothing else; the values of the indices never make it
    fail. *)
Theorem X22_action_shape_and_errors :
  forall (actions : list (list Z)),
    ((exists rows, normalize_action actions = Ok rows)
     <-> (exists a0 a1 rest,
             actions = a0 :: a1 :: rest
             /\ (4 <= List.length a0)%nat /\ (4 <= List.length a1)%nat))
    /\ (forall rows,
           normalize_action actions = Ok rows ->
           List.length rows = num_agents
           /\ Forall (fun row => List.length row = 4%nat) rows)
    /\ (forall e, normalize_action actions = Raise e -> e = IndexError).
Proof.
  intros actions. unfold normalize_action, num_agents.
  assert (Hinv : forall rows,
             for_range (_normalize_action actions) 0 2 = Ok rows ->
             exists a0 a1 rest r0 r1,
               actions = a0 :: a1 :: rest
               /\ (4 <= List.length a0)%nat /\ (4 <= List.length a1)%nat
               /\ rows = [r0; r1]
               /\ List.length r0 = 4%nat /\ List.length r1 = 4%nat).
  { intros rows H.
    apply for_range_two_inv in H as (r0 & r1 & H0 & H1 & ->).
    destruct (normalize_action_ok_inv _ _ _ H0) as (a0 & E0 & L0 & M0).
    destruct (normalize_action_ok_inv _ _ _ H1) as (a1 & E1 & L1 & M1).
    destruct actions as [|x0 [|x1 rest]]; try discriminate.
    simpl in E0, E1. injection E0 as ->. injection E1 as ->.
    exists a0, a1, rest, r0, r1. repeat split; assumption. }
  split; [split|split].
  - intros [rows H].
    destruct (Hinv rows H) as (a0 & a1 & rest & _ & _ & -> & L0 & L1 & _).
    exists a0, a1, rest. repeat split; assumption.
  - intros (a0 & a1 & rest & -> & L0 & L1).
    eexists. apply for_range_two.
    + apply (_normalize_action_ok (a0 :: a1 :: rest) 0%nat a0 eq_refl L0).
    + apply (_normalize_action_ok (a0 :: a1 :: rest) 1%nat a1 eq_refl L1).
  - intros rows H.
    destruct (Hinv rows H)
      as (a0 & a1 & rest & r0 & r1 & _ & _ & _ & -> & M0 & M1).
    split; [reflexivity|]. repeat constructor; assumption.
  - intros e H.
    apply for_range_two_raise in H as [H | H];
      exact (normalize_action_raise _ _ _ H).
Qed.

Lemma X22_action_shape_and_errors_witness :
  (exists rows, normalize_action Samples.actions_off_grid = Ok rows)
  /\ normalize_action MoreSamples.actions_short_row = Raise IndexError.
Proof.
  destruct (X22_action_shape_and_errors Samples.actions_off_grid)
    as ((_ & Hok) & _ & _).
  split.
  - apply Hok. exists [50; 0; 0; -1]%Z, [-3; 41; 0; 30]%Z, [].
    repeat split; simpl; lia.
  - reflexivity.
Defined.

End TaskCoverage.
